(** * A page editor over Fabric canvases and a PDF writer: model and properties

    The development follows [src/App.jsx]: the page store kept in React
    state, the single editing canvas with its Fabric objects, the mosaic
    bake, and the per-page export into the merged document.

    Conventions of the model:
    - JavaScript numbers are rationals ([Q]), or integers ([Z]) where the
      source only ever stores integers (indices, rotation angles);
      [undefined] is [None].
    - A Fabric object is a property bag behind a reference; the canvas, the
      active selection and the scheduled callbacks share objects through
      the heap of the state.
    - [setTimeout] and [img.onload] callbacks are kept in the state until
      they fire; the callbacks of the image and document loaders inside the
      page-load effect are run in place.
    - The calls into Fabric, the browser canvas and the PDF library whose
      results the program only passes along are the methods of the class
      [Platform]. *)

From Stdlib Require Import ZArith QArith Qround Lia.
From stdpp Require Import base tactics option list numbers strings gmap.

Local Open Scope Z_scope.

(** ** JavaScript values *)

Module Js.

#[global] Instance Q_eq_dec : EqDecision Q.
Proof. solve_decision. Defined.

(** The values a Fabric object property can hold in this program.  A
    property that is [undefined] (or absent) is [None] at the type
    [option JsVal]. *)
Inductive JsVal :=
| JNull
| JBool (b : bool)
| JNum (q : Q)
| JNaN
| JStr (s : string).

#[global] Instance JsVal_eq_dec : EqDecision JsVal.
Proof. solve_decision. Defined.

Definition Qzero (q : Q) : bool := (Qnum q =? 0)%Z.

(** ToBoolean. *)
Definition truthy (v : option JsVal) : bool :=
  match v with
  | None | Some JNull | Some JNaN => false
  | Some (JBool b) => b
  | Some (JNum q) => negb (Qzero q)
  | Some (JStr s) => negb (String.eqb s "")
  end.

(** [a || b]. *)
Definition or (a b : option JsVal) : option JsVal := if truthy a then a else b.

(** ToNumber; [None] is [NaN].  The strings this program stores in objects
    are colours and type names, none of which reads as a number. *)
Definition toNumber (v : option JsVal) : option Q :=
  match v with
  | Some (JNum q) => Some q
  | Some (JBool b) => Some (if b then 1 else 0)%Q
  | Some JNull => Some 0%Q
  | None | Some JNaN | Some (JStr _) => None
  end.

(** Truncation toward zero, the integer part [parseInt] keeps. *)
Definition Qtrunc (q : Q) : Z := Z.quot (Qnum q) (Zpos (Qden q)).

(** [parseFloat(value)] and [parseInt(value)].  The values come from range
    inputs; a numeric string is represented by its number, anything else
    parses to [NaN]. *)
Definition parseFloat (v : JsVal) : JsVal :=
  match v with JNum q => JNum q | _ => JNaN end.

Definition parseInt (v : JsVal) : JsVal :=
  match v with JNum q => JNum (inject_Z (Qtrunc q)) | _ => JNaN end.

(** [v * 4] on a parsed number. *)
Definition times4 (v : JsVal) : JsVal :=
  match v with JNum q => JNum (q * 4)%Q | _ => JNaN end.

(** [Math.max(1, Math.floor(w / n))]; [None] is [NaN]. *)
Definition max1_floor_div (w : Q) (n : option Q) : option Z :=
  n ← n; Some (Z.max 1 (Qfloor (w / n))).

(** [a % b] on integers: the sign follows the dividend. *)
Definition rem (a b : Z) : Z := Z.rem a b.

(** [arr[i]] for an integer index. *)
Definition index {A} (l : list A) (i : Z) : option A :=
  if (i <? 0)%Z then None else l !! Z.to_nat i.

End Js.
Export Js.

(** ** The page store *)

(** The serialised scene kept in a page: the records of the canvas objects,
    back to front.  A record is a JSON object, a finite map from property
    names to values.  (The canvas-level entries Fabric adds to the
    document, its version and background, are not part of the model.) *)
Record SceneDocument := { doc_objects : list (gmap string JsVal) }.

#[global] Instance SceneDocument_eq_dec : EqDecision SceneDocument.
Proof. solve_decision. Defined.

Record Page := {
  id : string;
  pdfBytes : option nat;        (* the shared source buffer, by identity *)
  pageNum : Z;
  thumb : string;
  fabricData : option SceneDocument;
  width : Q;
  height : Q;
  rotation : Z;
}.

#[global] Instance Page_eq_dec : EqDecision Page.
Proof. solve_decision. Defined.

Definition set_fabricData (json : SceneDocument) (p : Page) : Page :=
  {| id := id p; pdfBytes := pdfBytes p; pageNum := pageNum p;
     thumb := thumb p; fabricData := Some json;
     width := width p; height := height p; rotation := rotation p |}.

Definition set_rotation (r : Z) (p : Page) : Page :=
  {| id := id p; pdfBytes := pdfBytes p; pageNum := pageNum p;
     thumb := thumb p; fabricData := fabricData p;
     width := width p; height := height p; rotation := r |}.

(** ** Rotation-aware dimensions, as computed at each call site *)

Module Dimensions.

(** The page-load effect: [isRotated], [cw], [ch]. *)
Definition load_isRotated (page : Page) : bool :=
  negb (Js.rem (rotation page) 180 =? 0).
Definition load_cw (page : Page) : Q :=
  if load_isRotated page then height page else width page.
Definition load_ch (page : Page) : Q :=
  if load_isRotated page then width page else height page.

(** [exportPDF]: [isRotated], [fabricWidth], [fabricHeight]. *)
Definition export_isRotated (pageData : Page) : bool :=
  negb (Js.rem (rotation pageData) 180 =? 0).
Definition fabricWidth (pageData : Page) : Q :=
  if export_isRotated pageData then height pageData else width pageData.
Definition fabricHeight (pageData : Page) : Q :=
  if export_isRotated pageData then width pageData else height pageData.

(** [fitZoom]: [canvasW], [canvasH]. *)
Definition canvasW (page : Page) : Q :=
  if negb (Js.rem (rotation page) 180 =? 0) then height page else width page.
Definition canvasH (page : Page) : Q :=
  if negb (Js.rem (rotation page) 180 =? 0) then width page else height page.

End Dimensions.

(** ** Fabric objects and the calls into the libraries *)

Record Rect := {
  rect_left : Q; rect_top : Q; rect_width : Q; rect_height : Q;
}.

#[global] Instance Rect_eq_dec : EqDecision Rect.
Proof. solve_decision. Defined.

(** The pixel source of an image object. *)
Inductive Element :=
| BlankCanvas (w h : Q)
    (* a canvas element just created: transparent, nothing drawn *)
| MosaicCanvas (src : string) (sw sh : option Z) (w h : Q)
    (* [finalCanvas]: the capture [src] drawn into an [sw] x [sh] canvas
       and from there, without smoothing, into a [w] x [h] canvas *)
| Bitmap (src : string).
    (* a decoded image *)

#[global] Instance Element_eq_dec : EqDecision Element.
Proof. solve_decision. Defined.

(** A Fabric object: its property bag, and the element of an image. *)
Record FabricObject := {
  props : gmap string JsVal;
  _element : option Element;
}.

#[global] Instance FabricObject_eq_dec : EqDecision FabricObject.
Proof. solve_decision. Defined.

#[global] Instance FabricObject_inhabited : Inhabited FabricObject :=
  populate {| props := ∅; _element := None |}.

(** [obj.key] and [obj.set(key, value)]. *)
Definition get (key : string) (obj : FabricObject) : option JsVal :=
  props obj !! key.

Definition set (key : string) (value : option JsVal) (obj : FabricObject)
  : FabricObject :=
  {| props := partial_alter (λ _, value) key (props obj);
     _element := _element obj |}.

Definition setElement (e : Element) (obj : FabricObject) : FabricObject :=
  {| props := props obj; _element := Some e |}.

Definition isMosaic (obj : FabricObject) : bool := truthy (get "isMosaic" obj).

(** The background image of a canvas. *)
Record BgImage := {
  bg_src : string; bg_left : Q; bg_top : Q; bg_angle : Z; bg_scale : Q;
}.

(** What a canvas renders: its size, background and objects, back to front. *)
Record Surface := {
  sf_width : Q; sf_height : Q;
  sf_background : option BgImage;
  sf_objects : list FabricObject;
}.

(** ** The PDF writer *)

Record DrawImageOptions := {
  opt_x : Q; opt_y : Q; opt_width : Q; opt_height : Q;
  opt_rotate : option Z;      (* [degrees(rot)], when given *)
}.

Record PDFPage := {
  Rotate : Z;
  MediaBox : Q * Q;
  drawn : list (string * DrawImageOptions);   (* images drawn, in order *)
}.

Definition getRotation (p : PDFPage) : Z := Rotate p.
Definition setRotation (angle : Z) (p : PDFPage) : PDFPage :=
  {| Rotate := angle; MediaBox := MediaBox p; drawn := drawn p |}.
Definition getSize (p : PDFPage) : Q * Q := MediaBox p.
Definition drawImage (image : string) (o : DrawImageOptions) (p : PDFPage)
  : PDFPage :=
  {| Rotate := Rotate p; MediaBox := MediaBox p;
     drawn := drawn p ++ [(image, o)] |}.
Definition blankPage (w h : Q) : PDFPage :=
  {| Rotate := 0; MediaBox := (w, h); drawn := [] |}.

(** The properties Fabric's [toObject] writes for every object of the kinds
    this program creates, whatever it is asked to include. *)
Definition stateProperties : list string :=
  ["type"; "originX"; "originY"; "left"; "top"; "width"; "height"; "fill";
   "stroke"; "strokeWidth"; "strokeDashArray"; "scaleX"; "scaleY"; "angle";
   "opacity"; "visible"; "fontSize"; "text"].

(** The library and browser calls whose results the program only passes
    along: they are left open, and every statement below holds for any
    implementation of them. *)
Class Platform := {
  (* fabric.Object#getBoundingRect(true) *)
  getBoundingRect : FabricObject → Rect;
  (* fabric.Object#toObject(propertiesToInclude) *)
  toObject : list string → FabricObject → gmap string JsVal;
  (* the object fabric.Canvas#loadFromJSON builds from one record *)
  enliven : gmap string JsVal → FabricObject;
  (* fabric.StaticCanvas#toDataURL on a region, HTMLCanvasElement#toDataURL
     on the whole surface *)
  toDataURL : Surface → option Rect → string;
  (* natural width and height of the image behind a URL *)
  imageSize : string → Q * Q;
  (* PDFDocument#copyPages of one page of a loaded source *)
  copyPage : nat → Z → PDFPage;
}.


(** ** The application state *)

(** Fabric objects are shared by reference between the canvas, the active
    selection and the callbacks that captured them. *)
Abbreviation ObjRef := nat.

(** [canvas.getActiveObject()]: one object, or an object of type
    ['activeSelection'] grouping several. *)
Inductive Active :=
| ActiveObject (obj : ObjRef)
| ActiveSelection (objs : list ObjRef).

Record Canvas := {
  cv_width : Q; cv_height : Q;
  backgroundColor : string;
  backgroundImage : option BgImage;
  _objects : list ObjRef;              (* back to front *)
  _activeObject : option Active;
}.

(** Callbacks that were scheduled and have not run yet. *)
Inductive Task :=
| Timeout (ms : Z) (obj : ObjRef)
    (* setTimeout(() => updateMosaicContent(obj), ms) *)
| ImgOnload (obj : ObjRef) (rect : Rect) (dataUrl : string).
    (* img.onload inside updateMosaicContent *)

Record App := {
  pages : list Page;
  currentIndex : Z;
  properties : gmap string JsVal;
  draggedIndex : option nat;
  dropTargetIndex : option nat;
  fabricCanvas : option Canvas;        (* fabricCanvas.current *)
  isUpdatingRef : bool;                (* isUpdatingRef.current *)
  heap : gmap nat FabricObject;        (* the objects behind the references *)
  nextRef : ObjRef;                    (* the next reference to hand out *)
  timers : list Task;
  snapshots : list SceneDocument;
    (* trace: the documents saveCurrentState handed to setPages, oldest first *)
}.

Definition set_pages (f : list Page → list Page) (st : App) : App :=
  {| pages := f (pages st); currentIndex := currentIndex st;
     properties := properties st; draggedIndex := draggedIndex st;
     dropTargetIndex := dropTargetIndex st; fabricCanvas := fabricCanvas st;
     isUpdatingRef := isUpdatingRef st; heap := heap st; nextRef := nextRef st;
     timers := timers st; snapshots := snapshots st |}.

Definition setCurrentIndex (i : Z) (st : App) : App :=
  {| pages := pages st; currentIndex := i;
     properties := properties st; draggedIndex := draggedIndex st;
     dropTargetIndex := dropTargetIndex st; fabricCanvas := fabricCanvas st;
     isUpdatingRef := isUpdatingRef st; heap := heap st; nextRef := nextRef st;
     timers := timers st; snapshots := snapshots st |}.

Definition setProperties (p : gmap string JsVal) (st : App) : App :=
  {| pages := pages st; currentIndex := currentIndex st;
     properties := p; draggedIndex := draggedIndex st;
     dropTargetIndex := dropTargetIndex st; fabricCanvas := fabricCanvas st;
     isUpdatingRef := isUpdatingRef st; heap := heap st; nextRef := nextRef st;
     timers := timers st; snapshots := snapshots st |}.

Definition setDraggedIndex (d : option nat) (st : App) : App :=
  {| pages := pages st; currentIndex := currentIndex st;
     properties := properties st; draggedIndex := d;
     dropTargetIndex := dropTargetIndex st; fabricCanvas := fabricCanvas st;
     isUpdatingRef := isUpdatingRef st; heap := heap st; nextRef := nextRef st;
     timers := timers st; snapshots := snapshots st |}.

Definition setDropTargetIndex (d : option nat) (st : App) : App :=
  {| pages := pages st; currentIndex := currentIndex st;
     properties := properties st; draggedIndex := draggedIndex st;
     dropTargetIndex := d; fabricCanvas := fabricCanvas st;
     isUpdatingRef := isUpdatingRef st; heap := heap st; nextRef := nextRef st;
     timers := timers st; snapshots := snapshots st |}.

Definition set_canvas (f : Canvas → Canvas) (st : App) : App :=
  {| pages := pages st; currentIndex := currentIndex st;
     properties := properties st; draggedIndex := draggedIndex st;
     dropTargetIndex := dropTargetIndex st; fabricCanvas := f <$> fabricCanvas st;
     isUpdatingRef := isUpdatingRef st; heap := heap st; nextRef := nextRef st;
     timers := timers st; snapshots := snapshots st |}.

Definition set_isUpdatingRef (b : bool) (st : App) : App :=
  {| pages := pages st; currentIndex := currentIndex st;
     properties := properties st; draggedIndex := draggedIndex st;
     dropTargetIndex := dropTargetIndex st; fabricCanvas := fabricCanvas st;
     isUpdatingRef := b; heap := heap st; nextRef := nextRef st;
     timers := timers st; snapshots := snapshots st |}.

Definition set_heap (f : gmap nat FabricObject → gmap nat FabricObject)
    (st : App) : App :=
  {| pages := pages st; currentIndex := currentIndex st;
     properties := properties st; draggedIndex := draggedIndex st;
     dropTargetIndex := dropTargetIndex st; fabricCanvas := fabricCanvas st;
     isUpdatingRef := isUpdatingRef st; heap := f (heap st); nextRef := nextRef st;
     timers := timers st; snapshots := snapshots st |}.

Definition set_nextRef (r : ObjRef) (st : App) : App :=
  {| pages := pages st; currentIndex := currentIndex st;
     properties := properties st; draggedIndex := draggedIndex st;
     dropTargetIndex := dropTargetIndex st; fabricCanvas := fabricCanvas st;
     isUpdatingRef := isUpdatingRef st; heap := heap st; nextRef := r;
     timers := timers st; snapshots := snapshots st |}.

Definition set_timers (f : list Task → list Task) (st : App) : App :=
  {| pages := pages st; currentIndex := currentIndex st;
     properties := properties st; draggedIndex := draggedIndex st;
     dropTargetIndex := dropTargetIndex st; fabricCanvas := fabricCanvas st;
     isUpdatingRef := isUpdatingRef st; heap := heap st; nextRef := nextRef st;
     timers := f (timers st); snapshots := snapshots st |}.

Definition log_snapshot (json : SceneDocument) (st : App) : App :=
  {| pages := pages st; currentIndex := currentIndex st;
     properties := properties st; draggedIndex := draggedIndex st;
     dropTargetIndex := dropTargetIndex st; fabricCanvas := fabricCanvas st;
     isUpdatingRef := isUpdatingRef st; heap := heap st; nextRef := nextRef st;
     timers := timers st; snapshots := snapshots st ++ [json] |}.

(** [obj] dereferenced, and a mutation of the object behind [obj]. *)
Definition deref (st : App) (obj : ObjRef) : FabricObject := heap st !!! obj.
Definition mutate (f : FabricObject → FabricObject) (obj : ObjRef) (st : App)
  : App := set_heap (alter f obj) st.

(** What the canvas renders. *)
Definition surface (canvas : Canvas) (h : gmap nat FabricObject) : Surface :=
  {| sf_width := cv_width canvas; sf_height := cv_height canvas;
     sf_background := backgroundImage canvas;
     sf_objects := (λ r, h !!! r) <$> _objects canvas |}.

(** ** Canvas state management *)

Section Editor.
Context `{Platform}.

(** [canvas.toJSON(propertiesToInclude)]: one record per object, in the
    order of the canvas. *)
Definition toJSON (propertiesToInclude : list string) (canvas : Canvas)
    (h : gmap nat FabricObject) : SceneDocument :=
  {| doc_objects := (λ r, toObject propertiesToInclude (h !!! r)) <$> _objects canvas |}.

Definition savedProperties : list string :=
  ["id"; "isMosaic"; "mosaicSize"; "selectable"; "evented"; "strokeUniform";
   "lockUniScaling"].

(** The updater [saveCurrentState] hands to [setPages]. *)
Definition savePages (currentIndex : Z) (currentPageId : string)
    (json : SceneDocument) (prev : list Page) : list Page :=
  match Js.index prev currentIndex with
  | None => prev
  | Some p =>
    if negb (String.eqb (id p) currentPageId) then prev
    else if bool_decide (fabricData p = Some json) then prev
    else <[Z.to_nat currentIndex := set_fabricData json p]> prev
  end.

Definition saveCurrentState (st : App) : App :=
  match fabricCanvas st with
  | None => st
  | Some canvas =>
    if (currentIndex st =? -1) || isUpdatingRef st then st
    else match Js.index (pages st) (currentIndex st) with
    | None => st
    | Some page =>
      let currentPageId := id page in
      if String.eqb currentPageId "" then st
      else
        let json := toJSON savedProperties canvas (heap st) in
        log_snapshot json
          (set_pages (savePages (currentIndex st) currentPageId json) st)
    end
  end.

(** ** Mosaic: capture the region under the object and pixelate it *)

(** [obj] is a reference here, never [null]: of the entry test
    [!fabricCanvas.current || !obj || !obj.isMosaic] the first and the last
    part remain. *)
Definition updateMosaicContent (obj : ObjRef) (st : App) : App :=
  match fabricCanvas st with
  | None => st
  | Some canvas =>
    if negb (isMosaic (deref st obj)) then st
    else
      let originalVisible := get "visible" (deref st obj) in
      let st := mutate (set "visible" (Some (JBool false))) obj st in
      (* canvas.renderAll() *)
      let rect := getBoundingRect (deref st obj) in
      if Qle_bool (rect_width rect) 0 || Qle_bool (rect_height rect) 0 then
        mutate (set "visible" originalVisible) obj st
      else
        let dataUrl := toDataURL (surface canvas (heap st)) (Some rect) in
        let st := mutate (set "visible" originalVisible) obj st in
        set_timers (λ ts, ts ++ [ImgOnload obj rect dataUrl]) st
  end.

(** The body of [img.onload]. *)
Definition imgOnload (obj : ObjRef) (rect : Rect) (dataUrl : string)
    (st : App) : App :=
  let mosaicSize := Js.or (get "mosaicSize" (deref st obj)) (Some (JNum 10)) in
  let w := rect_width rect in
  let h := rect_height rect in
  let smallW := max1_floor_div w (toNumber mosaicSize) in
  let smallH := max1_floor_div h (toNumber mosaicSize) in
  let finalCanvas := MosaicCanvas dataUrl smallW smallH w h in
  mutate (setElement finalCanvas) obj st.
  (* canvas.requestRenderAll() *)

(** A scheduled callback runs. *)
Definition runTask (t : Task) (st : App) : App :=
  match t with
  | Timeout _ obj => updateMosaicContent obj st
  | ImgOnload obj rect dataUrl => imgOnload obj rect dataUrl st
  end.

(** The [i]-th pending callback fires. *)
Definition fire (i : nat) (st : App) : App :=
  match timers st !! i with
  | Some t => runTask t (set_timers (delete i) st)
  | None => st
  end.

(** ** Canvas events *)

Definition handleSave (st : App) : App := saveCurrentState st.

Definition handleModified (target : option ObjRef) (st : App) : App :=
  let st :=
    match target with
    | Some t => if isMosaic (deref st t) then updateMosaicContent t st else st
    | None => st
    end in
  saveCurrentState st.

Definition handleObjectAdded (target : option ObjRef) (st : App) : App :=
  let st :=
    match target with
    | Some t =>
      if isMosaic (deref st t) then set_timers (λ ts, ts ++ [Timeout 50 t]) st
      else st
    | None => st
    end in
  saveCurrentState st.

(** ** Loading a page onto the canvas *)

(** [canvas.clear()], under the ['object:removed'] listener. *)
Definition clearCanvas (st : App) : App :=
  let removed := from_option _objects [] (fabricCanvas st) in
  let st :=
    set_canvas (λ c, {| cv_width := cv_width c; cv_height := cv_height c;
                        backgroundColor := ""; backgroundImage := None;
                        _objects := []; _activeObject := None |}) st in
  foldl (λ st _, handleSave st) st removed.

Definition setDimensions (w h : Q) (st : App) : App :=
  set_canvas (λ c, {| cv_width := w; cv_height := h;
                      backgroundColor := backgroundColor c;
                      backgroundImage := backgroundImage c;
                      _objects := _objects c;
                      _activeObject := _activeObject c |}) st.

Definition setBackgroundImage (img : BgImage) (st : App) : App :=
  set_canvas (λ c, {| cv_width := cv_width c; cv_height := cv_height c;
                      backgroundColor := backgroundColor c;
                      backgroundImage := Some img;
                      _objects := _objects c;
                      _activeObject := _activeObject c |}) st.

Definition setBackgroundColor (color : string) (st : App) : App :=
  set_canvas (λ c, {| cv_width := cv_width c; cv_height := cv_height c;
                      backgroundColor := color;
                      backgroundImage := backgroundImage c;
                      _objects := _objects c;
                      _activeObject := _activeObject c |}) st.

(** [canvas.add(obj)] for a new object, under the ['object:added']
    listener. *)
Definition addObject (o : FabricObject) (st : App) : App :=
  let r := nextRef st in
  let st := set_nextRef (S r) (set_heap (insert r o) st) in
  let st :=
    set_canvas (λ c, {| cv_width := cv_width c; cv_height := cv_height c;
                        backgroundColor := backgroundColor c;
                        backgroundImage := backgroundImage c;
                        _objects := _objects c ++ [r];
                        _activeObject := _activeObject c |}) st in
  handleObjectAdded (Some r) st.

(** [canvas.loadFromJSON(data, callback)] up to the call of [callback]:
    the canvas is emptied and the records are brought back in order. *)
Definition loadFromJSON (data : SceneDocument) (st : App) : App :=
  foldl (λ st rec, addObject (enliven rec) st) (clearCanvas st)
        (doc_objects data).

Definition scheduleMosaics (st : App) : App :=
  let objects := from_option _objects [] (fabricCanvas st) in
  foldl (λ st obj,
           if isMosaic (deref st obj)
           then set_timers (λ ts, ts ++ [Timeout 100 obj]) st else st)
        st objects.

Definition loadObjects (page : Page) (st : App) : App :=
  match fabricData page with
  | Some data =>
    let st := loadFromJSON data st in
    let st := scheduleMosaics st in
    (* fabricCanvas.current.requestRenderAll() *)
    set_isUpdatingRef false st
  | None => set_isUpdatingRef false st
  end.

Definition Qmax (a b : Q) : Q := if Qle_bool a b then b else a.

(** The effect keyed on the current page.  The image and document loaders
    call back once they are done; the effect is given here run through to
    the end of its callbacks.  ([fitZoom], scheduled last, only sets the
    zoom level, which the model leaves out.) *)
Definition loadPage (st : App) : App :=
  match Js.index (pages st) (currentIndex st), fabricCanvas st with
  | Some page, Some _ =>
    let st := set_isUpdatingRef true st in
    let cw := Dimensions.load_cw page in
    let ch := Dimensions.load_ch page in
    let st := setDimensions cw ch st in
    let st := clearCanvas st in
    if negb (String.eqb (thumb page) "") then
      let '(iw, ih) := imageSize (thumb page) in
      let isRotated := Dimensions.load_isRotated page in
      let scale := Qmax (cw / (if isRotated then ih else iw))
                        (ch / (if isRotated then iw else ih)) in
      let img := {| bg_src := thumb page; bg_left := cw / 2; bg_top := ch / 2;
                    bg_angle := rotation page; bg_scale := scale |} in
      let st := setBackgroundImage img st in
      loadObjects page st
    else
      let st := setBackgroundColor "#ffffff" st in
      loadObjects page st
  | _, _ => st
  end.

(** ** Styling the selection *)

(** One round of the [forEach] in [updateSelectedObject]. *)
Definition styleObject (key : string) (value : JsVal) (st : App)
    (obj : ObjRef) : App :=
  let st :=
    if String.eqb key "color" then
      let st :=
        if negb (bool_decide (get "fill" (deref st obj) = Some (JStr "transparent")))
           && negb (isMosaic (deref st obj))
           && negb (bool_decide (get "type" (deref st obj) = Some (JStr "image")))
        then mutate (set "fill" (Some value)) obj st else st in
      let st :=
        if truthy (get "stroke" (deref st obj))
           && negb (bool_decide (get "stroke" (deref st obj) = Some (JStr "transparent")))
        then mutate (set "stroke" (Some value)) obj st else st in
      if bool_decide (get "type" (deref st obj) = Some (JStr "i-text"))
      then mutate (set "fill" (Some value)) obj st else st
    else st in
  let st :=
    if String.eqb key "opacity"
    then mutate (set "opacity" (Some (parseFloat value))) obj st else st in
  if String.eqb key "size" then
    let val := parseInt value in
    if isMosaic (deref st obj) then
      let st := mutate (set "mosaicSize" (Some val)) obj st in
      updateMosaicContent obj st
    else if bool_decide (get "type" (deref st obj) = Some (JStr "i-text")) then
      mutate (set "fontSize" (Some (times4 val))) obj st
    else if truthy (get "stroke" (deref st obj)) then
      mutate (set "strokeWidth" (Some val)) obj st
    else st
  else st.


(** ** The page list *)

(** [a.splice(from, 1)[0]] put back with [a.splice(to, 0, item)].  Past the
    end nothing is taken out and [undefined] would be put in: the result is
    then no list of pages, [None]. *)
Definition spliceMove {A} (from to : nat) (a : list A) : option (list A) :=
  item ← a !! from;
  let a := delete from a in
  Some (take to a ++ item :: drop to a).

(** [a.filter((_, i) => keep(i))] and [a.map((x, i) => f(i, x))]. *)
Fixpoint filterIndex {A} (keep : nat → bool) (i : nat) (a : list A) : list A :=
  match a with
  | [] => []
  | x :: a =>
    if keep i then x :: filterIndex keep (S i) a else filterIndex keep (S i) a
  end.

(** [movePage(fromIndex, direction)], called with a position of the page
    list.  [None]: see [spliceMove]. *)
Definition movePage (fromIndex : nat) (direction : Z) (st : App) : option App :=
  let st' := saveCurrentState st in
  let toIndex := Z.of_nat fromIndex + direction in
  if (toIndex <? 0) || (toIndex >=? Z.of_nat (length (pages st))) then Some st'
  else
    newPages ← spliceMove fromIndex (Z.to_nat toIndex) (pages st');
    let st' := set_pages (λ _, newPages) st' in
    Some (if currentIndex st =? Z.of_nat fromIndex then setCurrentIndex toIndex st'
          else if currentIndex st =? toIndex
               then setCurrentIndex (Z.of_nat fromIndex) st'
               else st').

(** [onDrop] of the list entry at position [idx]. *)
Definition onDrop (idx : nat) (st : App) : option App :=
  match draggedIndex st with
  | None => Some st
  | Some dragged =>
    newPages ← spliceMove dragged idx (pages st);
    Some (setDropTargetIndex None
            (setDraggedIndex None (set_pages (λ _, newPages) st)))
  end.

(** The rotate and delete buttons of the list entry at position [idx]. *)
Definition rotatePage (idx : nat) (st : App) : App :=
  set_pages
    (imap (λ i pg, if (i =? idx)%nat
                   then set_rotation (Js.rem (rotation pg + 90) 360) pg
                   else pg)) st.

Definition deletePage (idx : nat) (st : App) : App :=
  set_pages (filterIndex (λ i, negb (i =? idx)%nat) 0) st.

End Editor.

(** ** Export *)

Section Exporter.
Context `{Platform}.

(** The static canvas of one page while its objects are replayed. *)
Definition staticSurface (pageData : Page) (bg : option BgImage)
    (objects : list FabricObject) : Surface :=
  {| sf_width := Dimensions.fabricWidth pageData;
     sf_height := Dimensions.fabricHeight pageData;
     sf_background := bg; sf_objects := objects |}.

(** One round of the loop over the replayed objects; [before] and [after]
    are the objects below and above [obj] on the static canvas. *)
Definition exportMosaic (pageData : Page) (bg : option BgImage)
    (before after : list FabricObject) (obj : FabricObject) : FabricObject :=
  if isMosaic obj then
    match bg with
    | Some _ =>
      let obj := set "stroke" (Some (JStr "transparent")) obj in
      let rect := getBoundingRect obj in
      (* staticFabric.renderAll() *)
      let dataUrl :=
        toDataURL (staticSurface pageData bg (before ++ obj :: after))
                  (Some rect) in
      let mosaicSize := Js.or (get "mosaicSize" obj) (Some (JNum 10)) in
      let sw := max1_floor_div (rect_width rect) (toNumber mosaicSize) in
      let sh := max1_floor_div (rect_height rect) (toNumber mosaicSize) in
      let finalCanvas :=
        MosaicCanvas dataUrl sw sh (rect_width rect) (rect_height rect) in
      setElement finalCanvas obj
    | None => obj
    end
  else obj.

Fixpoint exportMosaics (pageData : Page) (bg : option BgImage)
    (before todo : list FabricObject) : list FabricObject :=
  match todo with
  | [] => before
  | obj :: after =>
    exportMosaics pageData bg
      (before ++ [exportMosaic pageData bg before after obj]) after
  end.

(** The background the static canvas is given. *)
Definition exportBackground (pageData : Page) : option BgImage :=
  if negb (String.eqb (thumb pageData) "") then
    let '(iw, ih) := imageSize (thumb pageData) in
    let isRotated := Dimensions.export_isRotated pageData in
    let w := Dimensions.fabricWidth pageData in
    let h := Dimensions.fabricHeight pageData in
    Some {| bg_src := thumb pageData; bg_left := w / 2; bg_top := h / 2;
            bg_angle := rotation pageData;
            bg_scale := Qmax (w / (if isRotated then ih else iw))
                             (h / (if isRotated then iw else ih)) |}
  else None.

(** The objects on the static canvas when the overlay is taken. *)
Definition exportObjects (pageData : Page) : list FabricObject :=
  match fabricData pageData with
  | Some data =>
    exportMosaics pageData (exportBackground pageData) []
                  (enliven <$> doc_objects data)
  | None => []
  end.

(** The page added to the merged document, before anything is done to it. *)
Definition targetPage (pageData : Page) : PDFPage :=
  match pdfBytes pageData with
  | Some bytes => copyPage bytes (pageNum pageData - 1)
  | None => blankPage (width pageData) (height pageData)
  end.

(** The body of the loop over the pages. *)
Definition exportPage (pageData : Page) : PDFPage :=
  let pdfPage := targetPage pageData in
  let currentRot := getRotation pdfPage in
  let pdfPage := setRotation (currentRot + rotation pageData) pdfPage in
  let isRotated := Dimensions.export_isRotated pageData in
  let '(pdfWidth, pdfHeight) := getSize pdfPage in
  let objects := exportObjects pageData in
  (* staticFabric.backgroundImage = null *)
  let dataUrl := toDataURL (staticSurface pageData None objects) None in
  if negb (String.eqb dataUrl "data:,") then
    let overlayImg := dataUrl in
    if rotation pageData =? 0 then
      drawImage overlayImg
        {| opt_x := 0; opt_y := 0; opt_width := pdfWidth;
           opt_height := pdfHeight; opt_rotate := None |} pdfPage
    else
      let drawW := if isRotated then pdfHeight else pdfWidth in
      let drawH := if isRotated then pdfWidth else pdfHeight in
      let rot := Js.rem (rotation pageData) 360 in
      let '(x, y) :=
        if rot =? 90 then (pdfWidth, 0%Q)
        else if rot =? 180 then (pdfWidth, pdfHeight)
        else if rot =? 270 then (0%Q, pdfHeight)
        else (0%Q, 0%Q) in
      drawImage overlayImg
        {| opt_x := x; opt_y := y; opt_width := drawW; opt_height := drawH;
           opt_rotate := Some rot |} pdfPage
  else pdfPage.

(** [exportPDF]: the pages of the merged document, or nothing when there
    is no page. *)
Definition exportPDF (st : App) : option (list PDFPage) :=
  if (length (pages st) =? 0)%nat then None
  else Some (exportPage <$> pages st).

End Exporter.

(** ** A reference implementation of the library calls

    Used to run the model on concrete pages and scenes. *)

Module Reference.

Definition number (key : string) (obj : FabricObject) : Q :=
  default 0%Q (toNumber (get key obj)).

(** Objects are positioned by their centre. *)
Definition boundingRect (obj : FabricObject) : Rect :=
  {| rect_left := number "left" obj - number "width" obj / 2;
     rect_top := number "top" obj - number "height" obj / 2;
     rect_width := number "width" obj;
     rect_height := number "height" obj |}.

Definition toObjectRef (propertiesToInclude : list string)
    (obj : FabricObject) : gmap string JsVal :=
  filter (λ kv, kv.1 ∈ stateProperties ++ propertiesToInclude) (props obj).

Definition enlivenRef (rec : gmap string JsVal) : FabricObject :=
  {| props := rec; _element := None |}.

(** An empty surface has the empty data URL. *)
Definition toDataURLRef (sf : Surface) (region : option Rect) : string :=
  if Qle_bool (sf_width sf) 0 || Qle_bool (sf_height sf) 0 then "data:,"
  else "data:image/png;base64,iVBORw0KGgo=".

(** Sources whose pages are A4 and carry the rotation [srcRotate]. *)
Definition platform (srcRotate : Z) : Platform :=
  {| getBoundingRect := boundingRect;
     toObject := toObjectRef;
     enliven := enlivenRef;
     toDataURL := toDataURLRef;
     imageSize := λ _, (1190%Q, 1684%Q);
     copyPage := λ _ _, {| Rotate := srcRotate; MediaBox := (595%Q, 842%Q);
                           drawn := [] |} |}.

Definition page (pid : string) (source : option nat) (r : Z)
    (data : option SceneDocument) : Page :=
  {| id := pid; pdfBytes := source;
     pageNum := if source is Some _ then 1 else 0;
     thumb := "data:image/png;base64,AAAA"; fabricData := data;
     width := 1190; height := 1684; rotation := r |}.

End Reference.

(** ** Sample scenes

    Objects with the options [addShape] and [handleImageUpload] give them,
    and editor states holding them. *)

Module Samples.

Definition object (l : list (string * JsVal)) (e : option Element)
  : FabricObject := {| props := list_to_map l; _element := e |}.

Definition common (left top : Q) : list (string * JsVal) :=
  [("left", JNum left); ("top", JNum top); ("originX", JStr "center");
   ("originY", JStr "center"); ("opacity", JNum 1); ("visible", JBool true);
   ("lockUniScaling", JBool false)].

Definition filledRect : FabricObject :=
  object (common 100 100 ++
          [("type", JStr "rect"); ("fill", JStr "#ef4444");
           ("width", JNum 200); ("height", JNum 200);
           ("strokeWidth", JNum 1); ("strokeUniform", JBool true)]) None.

Definition outlinedRect : FabricObject :=
  object (common 150 120 ++
          [("type", JStr "rect"); ("fill", JStr "transparent");
           ("stroke", JStr "#ef4444"); ("strokeWidth", JNum 5);
           ("width", JNum 200); ("height", JNum 200);
           ("strokeUniform", JBool true)]) None.

Definition arrow : FabricObject :=
  object (common 200 140 ++
          [("type", JStr "path"); ("fill", JStr "transparent");
           ("stroke", JStr "#ef4444"); ("strokeWidth", JNum 5);
           ("width", JNum 200); ("height", JNum 200);
           ("strokeUniform", JBool true)]) None.

Definition text : FabricObject :=
  object (common 250 160 ++
          [("type", JStr "i-text"); ("fill", JStr "#ef4444");
           ("fontSize", JNum 20); ("strokeWidth", JNum 1);
           ("width", JNum 160); ("height", JNum 22)]) None.

Definition image : FabricObject :=
  object (common 300 180 ++
          [("type", JStr "image"); ("fill", JStr "rgb(0,0,0)");
           ("strokeWidth", JNum 0); ("width", JNum 64); ("height", JNum 48)])
         (Some (Bitmap "data:image/png;base64,BBBB")).

(** A mosaic region of the given block size and extent, not yet baked. *)
Definition mosaic (mosaicSize : JsVal) (w h : Q) : FabricObject :=
  object (common 100 100 ++
          [("type", JStr "image"); ("width", JNum w); ("height", JNum h);
           ("isMosaic", JBool true); ("mosaicSize", mosaicSize);
           ("stroke", JStr "#3b82f6"); ("strokeWidth", JNum 2);
           ("fill", JStr "transparent")])
         (Some (BlankCanvas 200 120)).

Definition allVariants : list FabricObject :=
  [filledRect; outlinedRect; arrow; text; image; mosaic (JNum 10) 200 120].

(** An idle editor on page [current] of [pages], with [objects] on the
    canvas and [active] selected. *)
Definition editor (pages : list Page) (current : Z)
    (objects : list FabricObject) (active : option Active) : App :=
  {| pages := pages; currentIndex := current;
     properties := list_to_map [("color", JStr "#ef4444"); ("opacity", JNum 1);
                                ("size", JNum 5)];
     draggedIndex := None; dropTargetIndex := None;
     fabricCanvas :=
       Some {| cv_width := 1190; cv_height := 1684; backgroundColor := "";
               backgroundImage := None;
               _objects := seq 0 (length objects);
               _activeObject := active |};
     isUpdatingRef := false;
     heap := list_to_map (zip (seq 0 (length objects)) objects);
     nextRef := length objects;
     timers := []; snapshots := [] |}.

(** The document [saveCurrentState] stores for [objects]. *)
Definition saved (objects : list FabricObject) : SceneDocument :=
  {| doc_objects := Reference.toObjectRef savedProperties <$> objects |}.

End Samples.

(** ** Vocabulary of the statements *)



(** The object behind [obj] exists. *)
Definition allocated (st : App) (obj : ObjRef) : Prop := is_Some (heap st !! obj).

(** From [st] to [st'] only objects and pending callbacks changed: the page
    store, the current index, the canvas and the trace of snapshots are
    the same. *)
Definition sameStore (st st' : App) : Prop :=
  pages st' = pages st ∧ currentIndex st' = currentIndex st
  ∧ fabricCanvas st' = fabricCanvas st
  ∧ isUpdatingRef st' = isUpdatingRef st
  ∧ snapshots st' = snapshots st.



(** ** The rest of the editor: tool properties, zoom, new pages, new objects *)

Definition Qmin (a b : Q) : Q := if Qle_bool a b then a else b.

(** [Math.round(x)]: the nearest integer, halves going up. *)
Definition Qround (x : Q) : Z := Qfloor (x + (1 # 2)).

(** [Math.round(v / 4)] on a property value. *)
Definition roundQuarter (v : option JsVal) : JsVal :=
  match toNumber v with
  | Some q => JNum (inject_Z (Qround (q / 4)))
  | None => JNaN
  end.

(** [typeof v === 'string']. *)
Definition isString (v : option JsVal) : bool :=
  match v with Some (JStr _) => true | _ => false end.

(** [syncProperties(obj)] for an object of the canvas: the tool properties
    take its colour, opacity and size. *)
Definition syncProperties (obj : ObjRef) (st : App) : App :=
  let o := deref st obj in
  let currentSize :=
    if isMosaic o then Js.or (get "mosaicSize" o) (Some (JNum 10))
    else if bool_decide (get "type" o = Some (JStr "i-text"))
    then Some (roundQuarter (Js.or (get "fontSize" o) (Some (JNum 40))))
    else if truthy (get "strokeWidth" o) then get "strokeWidth" o
    else Some (JNum 5) in
  let prev := properties st in
  let color :=
    if bool_decide (get "fill" o = Some (JStr "transparent"))
    then get "stroke" o
    else if isString (get "fill" o) then get "fill" o else prev !! "color" in
  let opacity := Js.or (get "opacity" o) (Some (JNum 1)) in
  setProperties
    (partial_alter (λ _, currentSize) "size"
       (partial_alter (λ _, opacity) "opacity"
          (partial_alter (λ _, color) "color" prev))) st.

(** The listener of ['selection:created'] and ['selection:updated']. *)
Definition handleSelection (selected : option (list ObjRef)) (st : App) : App :=
  match selected with
  | Some (sel :: _) => syncProperties sel st
  | _ => st
  end.

(** [fitZoom], for a workspace of the given client size: the zoom level it
    sets, if it sets one. *)
Definition fitZoom (clientWidth clientHeight : Q) (st : App) : option Q :=
  if currentIndex st =? -1 then None
  else match Js.index (pages st) (currentIndex st), fabricCanvas st with
  | Some page, Some _ =>
    let canvasW := Dimensions.canvasW page in
    let canvasH := Dimensions.canvasH page in
    let containerW := (clientWidth - 60)%Q in
    let containerH := (clientHeight - 60)%Q in
    if Qzero canvasW || Qzero canvasH then None
    else
      let scale :=
        Qmin (Qmin (containerW / canvasW) (containerH / canvasH)) (9 # 10) in
      (* a quotient by a non-zero number is finite *)
      Some (if negb (Qle_bool scale 0) then scale else (1 # 2))
  | _, _ => None
  end.

(** The zoom level after a wheel event over the canvas, and after the
    zoom-out and zoom-in buttons. *)
Definition wheelZoom (deltaY prev : Q) : Q :=
  let delta := (- deltaY * (1 # 1000))%Q in
  Qmin (Qmax (1 # 10) (prev + delta)) 5.

Definition zoomOut (prev : Q) : Q := Qmax (1 # 10) (prev - (1 # 10)).
Definition zoomIn (prev : Q) : Q := Qmin 5 (prev + (1 # 10)).

(** [addBlankPage]; [newId] is the id drawn for the page and [thumb] the
    data URL of its white canvas. *)
Definition addBlankPage (newId thumb : string) (st : App) : App :=
  let width := 1240%Q in
  let height := 1754%Q in
  let newPage :=
    {| id := newId; pdfBytes := None; pageNum := 0; thumb := thumb;
       fabricData := None; width := width; height := height; rotation := 0 |} in
  let st' := set_pages (λ prev, prev ++ [newPage]) st in
  if currentIndex st =? -1 then setCurrentIndex 0 st' else st'.

(** What the decoder gives for one page of a source: the id drawn for it,
    its rendering as a data URL and the size of its viewport. *)
Record RenderedPage := {
  r_id : string; r_thumb : string; r_width : Q; r_height : Q;
}.

(** The pages made of one file, numbered from 1. *)
Definition pagesOfFile (arrayBuffer : nat) (rendered : list RenderedPage)
  : list Page :=
  imap (λ i r, {| id := r_id r; pdfBytes := Some arrayBuffer;
                  pageNum := Z.of_nat i + 1; thumb := r_thumb r;
                  fabricData := None; width := r_width r;
                  height := r_height r; rotation := 0 |}) rendered.



(** [new fabric.Klass(element, options)]: the defaults of the class with
    the options laid over them. *)
Definition newObject (defaults : gmap string JsVal)
    (options : list (string * option JsVal)) (element : option Element)
  : FabricObject :=
  foldl (λ o kv, set kv.1 kv.2 o)
        {| props := defaults; _element := element |} options.

(** [canvas.getVpCenter()]; the viewport transform is never changed. *)
Definition getVpCenter (canvas : Canvas) : Q * Q :=
  ((cv_width canvas / 2)%Q, (cv_height canvas / 2)%Q).

(** The scale [handleImageUpload] gives an image of natural size
    [iw] x [ih]. *)
Definition imageScale (canvas : Canvas) (iw ih : Q) : Q :=
  Qmin (Qmin ((cv_width canvas * (4 # 10)) / iw)
             ((cv_height canvas * (4 # 10)) / ih)) 1.

Section MoreEditor.
Context `{Platform}.

(** [canvas.setActiveObject(obj)], under the ['selection:created']
    listener. *)
Definition setActiveObject (obj : ObjRef) (st : App) : App :=
  let st :=
    set_canvas (λ c, {| cv_width := cv_width c; cv_height := cv_height c;
                        backgroundColor := backgroundColor c;
                        backgroundImage := backgroundImage c;
                        _objects := _objects c;
                        _activeObject := Some (ActiveObject obj) |}) st in
  handleSelection (Some [obj]) st.

(** The class, options and element [addShape] builds its object from. *)
Definition shapeOptions (type : string) (canvas : Canvas)
    (properties : gmap string JsVal)
  : option (string * list (string * option JsVal) * option Element) :=
  let center := getVpCenter canvas in
  let commonProps (lockUniScaling : bool) :=
    [("left", Some (JNum center.1)); ("top", Some (JNum center.2));
     ("originX", Some (JStr "center")); ("originY", Some (JStr "center"));
     ("opacity", properties !! "opacity");
     ("lockUniScaling", Some (JBool lockUniScaling))] in
  if String.eqb type "rect" then
    Some ("rect",
          commonProps false ++
          [("fill", properties !! "color"); ("width", Some (JNum 200));
           ("height", Some (JNum 200)); ("strokeUniform", Some (JBool true))],
          None)
  else if String.eqb type "rect-outline" then
    Some ("rect",
          commonProps false ++
          [("fill", Some (JStr "transparent")); ("stroke", properties !! "color");
           ("strokeWidth", properties !! "size");
           ("width", Some (JNum 200)); ("height", Some (JNum 200));
           ("strokeUniform", Some (JBool true))],
          None)
  else if String.eqb type "arrow" then
    Some ("path",
          commonProps false ++
          [("stroke", properties !! "color");
           ("strokeWidth", properties !! "size");
           ("fill", Some (JStr "transparent"));
           ("strokeUniform", Some (JBool true))],
          None)
  else if String.eqb type "text" then
    Some ("i-text",
          commonProps false ++
          [("fill", properties !! "color");
           ("fontSize", Some (match properties !! "size" with
                              | Some v => times4 v
                              | None => JNaN
                              end))],
          None)
  else if String.eqb type "mosaic" then
    Some ("image",
          commonProps false ++
          [("width", Some (JNum 200)); ("height", Some (JNum 120));
           ("isMosaic", Some (JBool true));
           ("mosaicSize", properties !! "size");
           ("stroke", Some (JStr "#3b82f6"));
           ("strokeWidth", Some (JNum 2));
           ("fill", Some (JStr "transparent"))],
          Some (BlankCanvas 200 120))
  else None.

(** [addShape(type)]; [defaults] gives the default properties of each
    Fabric class, its type among them.  (The tool shown as selected, the
    path data of the arrow, the string of the text and the dash pattern of
    the mosaic outline are not part of the model.) *)
Definition addShape (defaults : string → gmap string JsVal) (type : string)
    (st : App) : App :=
  match fabricCanvas st with
  | None => st
  | Some canvas =>
    if currentIndex st =? -1 then st
    else match shapeOptions type canvas (properties st) with
    | None => st
    | Some (klass, options, element) =>
      let obj := nextRef st in
      let st := addObject (newObject (defaults klass) options element) st in
      let st := setActiveObject obj st in
      (* canvas.renderAll() *)
      saveCurrentState st
    end
  end.

(** The body of [imgObj.onload] in [handleImageUpload], for the file at
    position [index] of [total], decoded to an image of natural size
    [iw] x [ih]. *)
Definition insertImage (defaults : gmap string JsVal) (index total : nat)
    (src : string) (iw ih : Q) (st : App) : App :=
  match fabricCanvas st with
  | None => st
  | Some canvas =>
    let scale := imageScale canvas iw ih in
    let center := getVpCenter canvas in
    let offset := (inject_Z (Z.of_nat index) * 20)%Q in
    let imgInstance :=
      foldl (λ o kv, set kv.1 kv.2 o)
        (newObject defaults
           [("width", Some (JNum iw)); ("height", Some (JNum ih))]
           (Some (Bitmap src)))
        [("scaleX", Some (JNum scale)); ("scaleY", Some (JNum scale));
         ("left", Some (JNum (center.1 + offset)));
         ("top", Some (JNum (center.2 + offset)));
         ("originX", Some (JStr "center")); ("originY", Some (JStr "center"));
         ("cornerColor", Some (JStr "#3b82f6"));
         ("cornerStyle", Some (JStr "circle"));
         ("borderColor", Some (JStr "#3b82f6"));
         ("transparentCorners", Some (JBool false));
         ("lockUniScaling", Some (JBool true))] in
    let obj := nextRef st in
    let st := addObject imgInstance st in
    if (Z.of_nat index =? Z.of_nat total - 1) then
      let st := setActiveObject obj st in
      (* canvas.requestRenderAll(); setTool('select') *)
      saveCurrentState st
    else st
  end.

End MoreEditor.

(** The callbacks still to run, counted with what each can leave behind: a
    scheduled bake may schedule one [img.onload]. *)
Definition pendingWork (ts : list Task) : nat :=
  foldr (λ t n, (match t with Timeout _ _ => 2 | ImgOnload _ _ _ => 1 end + n)%nat)
        0%nat ts.

(** * Properties *)

(** ** Property bags *)

Lemma get_set key value obj : get key (set key value obj) = value.
Proof. unfold get, set; simpl. by rewrite lookup_partial_alter_eq. Qed.

Lemma get_set_ne key key' value obj :
  key ≠ key' → get key' (set key value obj) = get key' obj.
Proof. intros. unfold get, set; simpl. by rewrite lookup_partial_alter_ne. Qed.

Lemma set_get key obj : set key (get key obj) obj = obj.
Proof.
  destruct obj as [m e]. unfold set, get; simpl. f_equal.
  apply map_eq; intros k. destruct (decide (key = k)) as [->|].
  - by rewrite lookup_partial_alter_eq.
  - by rewrite lookup_partial_alter_ne.
Qed.

Lemma set_set key v w obj : set key v (set key w obj) = set key v obj.
Proof.
  destruct obj as [m e]. unfold set; simpl. f_equal.
  apply map_eq; intros k. destruct (decide (key = k)) as [->|].
  - by rewrite !lookup_partial_alter_eq.
  - by rewrite !lookup_partial_alter_ne.
Qed.

(** ** Rotation-aware dimensions *)

Section DimensionsFacts.
Import Dimensions.

Lemma isRotated_quarter r :
  r ∈ [0; 90; 180; 270] →
  negb (Js.rem r 180 =? 0) = bool_decide (r = 90 ∨ r = 270).
Proof.
  intros Hr. repeat (apply elem_of_cons in Hr as [->|Hr]); [done..|].
  by apply elem_of_nil in Hr.
Qed.

(** C2: for a rotation among 0, 90, 180 and 270 the editing surface and the
    export overlay are both sized (height, width) when the rotation is 90
    or 270 and (width, height) otherwise, and the two call sites agree. *)
Theorem effective_dimensions_swap (page : Page) :
  rotation page ∈ [0; 90; 180; 270] →
  (load_cw page, load_ch page) =
    (if bool_decide (rotation page = 90 ∨ rotation page = 270)
     then (height page, width page) else (width page, height page))
  ∧ (fabricWidth page, fabricHeight page) = (load_cw page, load_ch page).
Proof.
  intros Hr. split; [|done].
  unfold load_cw, load_ch, load_isRotated.
  rewrite (isRotated_quarter _ Hr). by case_bool_decide.
Qed.

Lemma effective_dimensions_swap_witness :
  let page := Reference.page "p1" None 90 None in
  (load_cw page, load_ch page) = (1684%Q, 1190%Q)
  ∧ (fabricWidth page, fabricHeight page) = (1684%Q, 1190%Q).
Proof.
  intros page.
  assert (Hr : rotation page ∈ [0; 90; 180; 270]).
  { simpl. apply elem_of_cons; right. apply elem_of_cons; by left. }
  destruct (effective_dimensions_swap page Hr) as [H1 H2].
  split; [exact H1 | by rewrite H2, H1].
Defined.

End DimensionsFacts.

(** ** Export: rotation and placement of the overlay *)

Section ExportFacts.
Context `{Platform}.

Lemma eqb_data_empty (s : string) : s ≠ "data:," → String.eqb s "data:," = false.
Proof. intros Hs. by apply String.eqb_neq. Qed.

(** Whatever is drawn, the rotation given to the page stays. *)
Lemma exportPage_Rotate (pageData : Page) :
  Rotate (exportPage pageData)
  = getRotation (targetPage pageData) + rotation pageData.
Proof.
  unfold exportPage.
  destruct (getSize _) as [pdfWidth pdfHeight].
  destruct (negb _); [|done].
  destruct (rotation pageData =? 0); [done|].
  by destruct (if Js.rem _ 360 =? 90 then _ else _).
Qed.

(** C3: when the overlay is not empty, a page with rotation 0 gets it drawn
    at (0,0) with the width and height the target page reports after its
    rotation was set; with rotation 90, 180 or 270 it is drawn rotated by
    that angle at (pageOutW,0), (pageOutW,pageOutH) or (0,pageOutH). *)
Theorem export_overlay_placement (pageData : Page) :
  let pdfPage :=
    setRotation (getRotation (targetPage pageData) + rotation pageData)
                (targetPage pageData) in
  let pageOutW := (getSize pdfPage).1 in
  let pageOutH := (getSize pdfPage).2 in
  let overlay :=
    toDataURL (staticSurface pageData None (exportObjects pageData)) None in
  let draws o := drawn (targetPage pageData) ++ [(overlay, o)] in
  overlay ≠ "data:," →
  (rotation pageData = 0 →
   drawn (exportPage pageData) =
     draws {| opt_x := 0; opt_y := 0; opt_width := pageOutW;
              opt_height := pageOutH; opt_rotate := None |})
  ∧ (rotation pageData = 90 →
     drawn (exportPage pageData) =
       draws {| opt_x := pageOutW; opt_y := 0; opt_width := pageOutH;
                opt_height := pageOutW; opt_rotate := Some 90 |})
  ∧ (rotation pageData = 180 →
     drawn (exportPage pageData) =
       draws {| opt_x := pageOutW; opt_y := pageOutH; opt_width := pageOutW;
                opt_height := pageOutH; opt_rotate := Some 180 |})
  ∧ (rotation pageData = 270 →
     drawn (exportPage pageData) =
       draws {| opt_x := 0; opt_y := pageOutH; opt_width := pageOutH;
                opt_height := pageOutW; opt_rotate := Some 270 |}).
Proof.
  intros pdfPage pageOutW pageOutH overlay draws Hne.
  unfold exportPage. fold pdfPage. fold overlay.
  rewrite (eqb_data_empty _ Hne). simpl negb. cbv iota.
  subst pageOutW pageOutH draws.
  destruct (getSize pdfPage) as [pdfWidth pdfHeight]. simpl fst; simpl snd.
  unfold Dimensions.export_isRotated.
  repeat split; intros ->; reflexivity.
Qed.

(** C4, as the code has it: the target page's rotation is set to the sum of
    its existing rotation and the page's stored rotation, not reduced
    modulo 360; the sum is the claimed angle exactly when it lies in
    [0, 360). *)
Theorem export_rotation_is_sum (pageData : Page) :
  let sum := getRotation (targetPage pageData) + rotation pageData in
  Rotate (exportPage pageData) = sum
  ∧ (Rotate (exportPage pageData) = sum `mod` 360 ↔ 0 ≤ sum < 360).
Proof.
  intros sum. rewrite exportPage_Rotate. fold sum. split; [done|].
  split.
  - intros ->. apply Z.mod_pos_bound. lia.
  - intros Hs. symmetry. by apply Z.mod_small.
Qed.

End ExportFacts.

Lemma export_overlay_placement_witness :
  let P := Reference.platform 0 in
  let pageData := Reference.page "p1" (Some 7%nat) 90 None in
  drawn (exportPage pageData) =
    [("data:image/png;base64,iVBORw0KGgo=",
      {| opt_x := 595; opt_y := 0; opt_width := 842; opt_height := 595;
         opt_rotate := Some 90 |})].
Proof.
  intros P pageData.
  assert (Hne : toDataURL (staticSurface pageData None (exportObjects pageData))
                  None ≠ "data:,") by (vm_compute; discriminate).
  destruct (export_overlay_placement pageData Hne) as (_ & H90 & _).
  exact (H90 eq_refl).
Defined.

(** C4 as claimed fails: a source page already rotated by 270 whose page
    was turned by 180 is given the rotation 450, not 90. *)
Lemma export_rotation_not_reduced :
  let P := Reference.platform 270 in
  let pageData := Reference.page "p1" (Some 7%nat) 180 None in
  Rotate (exportPage pageData)
    ≠ (getRotation (targetPage pageData) + rotation pageData) `mod` 360
  ∧ Rotate (exportPage pageData) = 450
  ∧ Rotate (exportPage pageData) ∉ [0; 90; 180; 270].
Proof.
  intros P pageData.
  assert (Hr : Rotate (exportPage pageData) = 450) by (vm_compute; reflexivity).
  rewrite Hr. split; [by vm_compute|]. split; [done|].
  intros Hin. repeat (apply elem_of_cons in Hin as [?|Hin]; [done|]).
  by apply elem_of_nil in Hin.
Qed.

(** ** References *)

Section HeapFacts.

Lemma deref_Some st obj o : heap st !! obj = Some o → deref st obj = o.
Proof. intros Ho. unfold deref. by rewrite (lookup_total_correct _ _ _ Ho). Qed.

Lemma heap_mutate f obj st : heap (mutate f obj st) = alter f obj (heap st).
Proof. done. Qed.

Lemma lookup_mutate_eq f obj st o :
  heap st !! obj = Some o → heap (mutate f obj st) !! obj = Some (f o).
Proof. intros Ho. rewrite heap_mutate, lookup_alter_eq. by rewrite Ho. Qed.


Lemma deref_mutate_eq f obj st o :
  heap st !! obj = Some o → deref (mutate f obj st) obj = f o.
Proof. intros Ho. apply deref_Some. by apply lookup_mutate_eq. Qed.


Lemma deref_unallocated st obj :
  heap st !! obj = None → deref st obj = inhabitant.
Proof. intros Ho. unfold deref. by rewrite lookup_total_alt, Ho. Qed.


(** Hiding an object and putting its visibility back leaves it as it was. *)
Lemma hide_restore (h : gmap nat FabricObject) obj :
  alter (set "visible" (get "visible" (h !!! obj))) obj
        (alter (set "visible" (Some (JBool false))) obj h) = h.
Proof.
  rewrite alter_alter_eq. apply alter_id. intros o Ho. simpl.
  rewrite (lookup_total_correct _ _ _ Ho). by rewrite set_set, set_get.
Qed.

End HeapFacts.

(** ** The mosaic bake *)

Section MosaicFacts.
Context `{Platform}.

Lemma isMosaic_allocated st obj :
  isMosaic (deref st obj) = true → ∃ o, heap st !! obj = Some o.
Proof.
  destruct (heap st !! obj) as [o|] eqn:Ho; [eauto|].
  by rewrite (deref_unallocated _ _ Ho).
Qed.


Lemma mutate_hide_restore st obj :
  mutate (set "visible" (get "visible" (deref st obj))) obj
         (mutate (set "visible" (Some (JBool false))) obj st) = st.
Proof.
  destruct st. unfold mutate, set_heap, deref; simpl. f_equal.
  apply hide_restore.
Qed.

(** The live bake skips a region without extent and leaves everything as
    it was. *)
Lemma updateMosaicContent_degenerate (obj : ObjRef) (st : App) :
  let rect :=
    getBoundingRect (set "visible" (Some (JBool false)) (deref st obj)) in
  Qle_bool (rect_width rect) 0 || Qle_bool (rect_height rect) 0 = true →
  updateMosaicContent obj st = st.
Proof.
  intros rect Hrect. unfold updateMosaicContent.
  destruct (fabricCanvas st) as [canvas|]; [|done].
  destruct (isMosaic (deref st obj)) eqn:Hm; [|done]. simpl.
  destruct (isMosaic_allocated _ _ Hm) as [o Ho].
  rewrite (deref_mutate_eq _ _ _ _ Ho).
  subst rect. rewrite (deref_Some _ _ _ Ho) in Hrect |- *. rewrite Hrect.
  rewrite <- (deref_Some _ _ _ Ho). apply mutate_hide_restore.
Qed.

(** A live bake of a region with extent: the capture is scheduled for
    [img.onload], and the object is as before. *)
Lemma updateMosaicContent_schedules (obj : ObjRef) (st : App) canvas :
  let rect :=
    getBoundingRect (set "visible" (Some (JBool false)) (deref st obj)) in
  fabricCanvas st = Some canvas →
  isMosaic (deref st obj) = true →
  Qle_bool (rect_width rect) 0 || Qle_bool (rect_height rect) 0 = false →
  ∃ dataUrl,
    updateMosaicContent obj st
    = set_timers (λ ts, ts ++ [ImgOnload obj rect dataUrl]) st.
Proof.
  intros rect Hc Hm Hrect. unfold updateMosaicContent. rewrite Hc, Hm. simpl.
  destruct (isMosaic_allocated _ _ Hm) as [o Ho].
  rewrite (deref_mutate_eq _ _ _ _ Ho).
  subst rect. rewrite (deref_Some _ _ _ Ho) in Hrect |- *. rewrite Hrect.
  eexists. f_equal.
  rewrite <- (deref_Some _ _ _ Ho). apply mutate_hide_restore.
Qed.


End MosaicFacts.



(** The export bake has no test on the extent of the region: with a
    background, every replayed mosaic object loses its stroke and gets a
    new element. *)
Lemma exportMosaic_unguarded `{Platform} pageData bg before after obj :
  let rect := getBoundingRect (set "stroke" (Some (JStr "transparent")) obj) in
  isMosaic obj = true →
  get "stroke" (exportMosaic pageData (Some bg) before after obj)
    = Some (JStr "transparent")
  ∧ ∃ dataUrl sw sh,
      _element (exportMosaic pageData (Some bg) before after obj)
      = Some (MosaicCanvas dataUrl sw sh (rect_width rect) (rect_height rect)).
Proof.
  intros rect Hm. unfold exportMosaic. rewrite Hm. simpl. split.
  - apply get_set.
  - eauto.
Qed.


(** ** Saving the scene *)

Section SaveFacts.
Context `{Platform}.

(** While a load is in flight nothing is saved. *)
Lemma saveCurrentState_updating st :
  isUpdatingRef st = true → saveCurrentState st = st.
Proof.
  intros Hu. unfold saveCurrentState. destruct (fabricCanvas st); [|done].
  by rewrite Hu, orb_true_r.
Qed.

Lemma index_Some_inv {A} (l : list A) (i : Z) (x : A) :
  Js.index l i = Some x → 0 ≤ i ∧ l !! Z.to_nat i = Some x.
Proof.
  unfold Js.index. destruct (i <? 0) eqn:Hi; [done|].
  apply Z.ltb_ge in Hi. done.
Qed.


(** Otherwise the page holds the snapshot afterwards, and is the same page. *)
Lemma savePages_current idx json prev p :
  Js.index prev idx = Some p →
  ∃ p', Js.index (savePages idx (id p) json prev) idx = Some p'
        ∧ fabricData p' = Some json ∧ id p' = id p.
Proof.
  intros Hp. unfold savePages. rewrite Hp, String.eqb_refl. simpl.
  case_bool_decide as Heq; [by exists p|].
  exists (set_fabricData json p). split; [|done].
  destruct (index_Some_inv _ _ _ Hp) as [Hi Hl]. unfold Js.index in *.
  destruct (idx <? 0); [done|].
  apply list_lookup_insert_eq. by eapply lookup_lt_Some.
Qed.

Lemma savePages_length idx pid json prev :
  length (savePages idx pid json prev) = length prev.
Proof.
  unfold savePages. repeat case_match; try done. by rewrite length_insert.
Qed.

(** In the Ready state a save takes exactly one snapshot, of the canvas as
    it is, and hands it to the store. *)
Lemma saveCurrentState_ready st canvas page :
  fabricCanvas st = Some canvas →
  isUpdatingRef st = false →
  Js.index (pages st) (currentIndex st) = Some page →
  id page ≠ "" →
  let json := toJSON savedProperties canvas (heap st) in
  saveCurrentState st
  = log_snapshot json
      (set_pages (savePages (currentIndex st) (id page) json) st).
Proof.
  intros Hc Hu Hp Hid json. unfold saveCurrentState. rewrite Hc, Hu, Hp.
  assert ((currentIndex st =? -1) = false) as ->.
  { apply Z.eqb_neq. destruct (index_Some_inv _ _ _ Hp). lia. }
  apply String.eqb_neq in Hid. by rewrite Hid.
Qed.

End SaveFacts.

(** ** Removing and reordering pages *)

Section PageListFacts.
Context `{Platform}.

(** C10: removing a page leaves the current index as it is, whichever page
    is removed; and when the index then points past the end of the list,
    the page-load effect returns at once and changes nothing. *)
Theorem delete_keeps_current_index (idx : nat) (st : App) :
  currentIndex (deletePage idx st) = currentIndex st
  ∧ (Js.index (pages (deletePage idx st)) (currentIndex (deletePage idx st))
       = None →
     loadPage (deletePage idx st) = deletePage idx st).
Proof.
  split; [done|]. intros Hnone. unfold loadPage. by rewrite Hnone.
Qed.

End PageListFacts.

Lemma delete_keeps_current_index_witness :
  let P := Reference.platform 0 in
  let st :=
    Samples.editor [Reference.page "A" None 0 None;
                    Reference.page "B" None 0 None] 1
                   Samples.allVariants None in
  pages (deletePage 1 st) = [Reference.page "A" None 0 None]
  ∧ currentIndex (deletePage 1 st) = 1
  ∧ loadPage (deletePage 1 st) = deletePage 1 st.
Proof.
  intros P st.
  destruct (delete_keeps_current_index 1 st) as [Hidx Hload].
  split; [reflexivity|]. split; [exact Hidx|].
  apply Hload. reflexivity.
Defined.

(** C8: dropping page A of [A,B,C] on position 2 gives [B,C,A] and leaves
    the current index at 0, so that the current page is now B; stepping A
    down twice with [movePage] gives the same list with the index at 2. *)
Theorem drag_reorder_keeps_index :
  let P := Reference.platform 0 in
  let A := Reference.page "A" None 0 None in
  let B := Reference.page "B" None 0 None in
  let C := Reference.page "C" None 0 None in
  let st := Samples.editor [A; B; C] 0 [] None in
  (∃ st', onDrop 2 (setDraggedIndex (Some 0%nat) st) = Some st'
          ∧ id <$> pages st' = ["B"; "C"; "A"]
          ∧ currentIndex st' = 0
          ∧ id <$> Js.index (pages st') (currentIndex st') = Some "B")
  ∧ (∃ st', (movePage 0 1 st ≫= movePage 1 1) = Some st'
            ∧ id <$> pages st' = ["B"; "C"; "A"]
            ∧ currentIndex st' = 2
            ∧ id <$> Js.index (pages st') (currentIndex st') = Some "A").
Proof.
  intros P A B C st. split.
  - eexists. split; [reflexivity|]. by vm_compute.
  - eexists. split; [by vm_compute|]. by vm_compute.
Qed.

(** ** What a bake and a style edit leave alone *)

Section FrameFacts.
Context `{Platform}.





Lemma sameStore_setProperties p st : sameStore st (setProperties p st).
Proof. by repeat split. Qed.

(** A live bake either does nothing or schedules one [img.onload]. *)
Lemma updateMosaicContent_cases obj st :
  updateMosaicContent obj st = st
  ∨ ∃ rect dataUrl,
      updateMosaicContent obj st
      = set_timers (λ ts, ts ++ [ImgOnload obj rect dataUrl]) st.
Proof.
  destruct (fabricCanvas st) as [canvas|] eqn:Hc;
    [|left; unfold updateMosaicContent; by rewrite Hc].
  destruct (isMosaic (deref st obj)) eqn:Hm;
    [|left; unfold updateMosaicContent; by rewrite Hc, Hm].
  set (rect := getBoundingRect
                 (set "visible" (Some (JBool false)) (deref st obj))).
  destruct (Qle_bool (rect_width rect) 0 || Qle_bool (rect_height rect) 0)
    eqn:Hr.
  - left. by apply updateMosaicContent_degenerate.
  - right. exists rect.
    by apply (updateMosaicContent_schedules obj st canvas Hc Hm Hr).
Qed.

Lemma updateMosaicContent_heap obj st :
  heap (updateMosaicContent obj st) = heap st.
Proof.
  destruct (updateMosaicContent_cases obj st) as [->|(?&?&->)]; done.
Qed.








Lemma styleObject_allocated key value st obj obj' :
  allocated st obj' → allocated (styleObject key value st obj) obj'.
Proof.
  unfold allocated, styleObject.
  repeat match goal with
         | |- context [if ?b then _ else _] => destruct b
         end;
    rewrite ?updateMosaicContent_heap, ?heap_mutate,
            ?lookup_alter_is_Some; try done;
    rewrite ?updateMosaicContent_heap, ?heap_mutate,
            ?lookup_alter_is_Some; done.
Qed.


End FrameFacts.

(** ** Styling a selection *)

Section StyleFacts.
Context `{Platform}.





End StyleFacts.


(** ** Deferred writes *)

Section DeferredFacts.
Context `{Platform}.


End DeferredFacts.


(** ** Loading a page *)

Section LoadFacts.
Context `{Platform}.

Lemma foldl_handleSave_updating {A} (removed : list A) st :
  isUpdatingRef st = true → foldl (λ st _, handleSave st) st removed = st.
Proof.
  intros Hu. induction removed as [|x removed IH]; simpl; [done|].
  unfold handleSave at 2. by rewrite (saveCurrentState_updating _ Hu).
Qed.









End LoadFacts.



(** ** Reordering by steps and by dragging *)

Section ReorderFacts.
Context `{Platform}.

Lemma spliceMove_down {A} (l1 : list A) x y l2 :
  spliceMove (length l1) (S (length l1)) (l1 ++ x :: y :: l2)
  = Some (l1 ++ y :: x :: l2).
Proof.
  induction l1 as [|a l1 IH]; [done|].
  unfold spliceMove in *. simpl in *.
  destruct ((l1 ++ x :: y :: l2) !! length l1); [|done].
  simpl in *. injection IH as IH. by rewrite IH.
Qed.

Lemma spliceMove_up {A} (l1 : list A) x y l2 :
  spliceMove (S (length l1)) (length l1) (l1 ++ x :: y :: l2)
  = Some (l1 ++ y :: x :: l2).
Proof.
  induction l1 as [|a l1 IH]; [done|].
  unfold spliceMove in *. simpl in *.
  destruct ((l1 ++ x :: y :: l2) !! S (length l1)); [|done].
  simpl in *. injection IH as IH. by rewrite IH.
Qed.

Lemma swap_lookup {A} (l1 : list A) x y l2 (j : nat) :
  (l1 ++ y :: x :: l2) !! j
  = if decide (j = length l1) then Some y
    else if decide (j = S (length l1)) then Some x
    else (l1 ++ x :: y :: l2) !! j.
Proof.
  revert j. induction l1 as [|a l1 IH]; intros j; simpl.
  - by destruct j as [|[|j]].
  - destruct j as [|j]; [done|]. simpl. rewrite IH.
    repeat case_decide; try done; lia.
Qed.

Lemma split_adjacent {A} (l : list A) (i : nat) :
  (S i < length l)%nat →
  ∃ l1 x y l2, l = l1 ++ x :: y :: l2 ∧ length l1 = i.
Proof.
  intros Hi.
  destruct (lookup_lt_is_Some_2 l i) as [x Hx]; [lia|].
  destruct (lookup_lt_is_Some_2 l (S i)) as [y Hy]; [lia|].
  exists (take i l), x, y, (drop (S (S i)) l). split.
  - rewrite <- (take_drop_middle l i x Hx) at 1. f_equal. f_equal.
    rewrite <- (take_drop_middle l (S i) y Hy) at 1.
    rewrite drop_app_length'; [done|]. rewrite length_take. lia.
  - rewrite length_take. lia.
Qed.

Lemma index_fmap {A B} (f : A → B) (l : list A) (i : Z) :
  Js.index (f <$> l) i = f <$> Js.index l i.
Proof. unfold Js.index. destruct (i <? 0); [done|]. apply list_lookup_fmap. Qed.

Lemma spliceMove_fmap {A B} (f : A → B) from to (l : list A) :
  spliceMove from to (f <$> l)
  = (λ k : list A, f <$> k) <$> spliceMove from to l.
Proof.
  unfold spliceMove. rewrite list_lookup_fmap.
  destruct (l !! from) as [x|]; [|done]. simpl. f_equal.
  assert (Hdel : ∀ (k : list A) n, delete n (f <$> k) = f <$> delete n k).
  { induction k as [|a k IH]; intros [|n]; simpl; try done.
    by rewrite <- IH. }
  by rewrite Hdel, fmap_app, fmap_cons, fmap_take, fmap_drop.
Qed.

(** A save changes no id, no position and not the current index. *)
Lemma saveCurrentState_ids st :
  id <$> pages (saveCurrentState st) = id <$> pages st
  ∧ currentIndex (saveCurrentState st) = currentIndex st.
Proof.
  unfold saveCurrentState. repeat case_match; try done. simpl.
  split; [|done]. unfold savePages. repeat case_match; try done.
  rewrite list_fmap_insert. apply list_insert_id.
  rewrite list_lookup_fmap.
  match goal with
  | Hp : Js.index _ _ = Some ?p |- _ =>
    destruct (index_Some_inv _ _ _ Hp) as [_ ->]
  end.
  done.
Qed.

Lemma index_nat {A} (l : list A) (n : nat) : Js.index l (Z.of_nat n) = l !! n.
Proof.
  unfold Js.index. destruct (Z.of_nat n <? 0) eqn:E.
  - apply Z.ltb_lt in E. lia.
  - by rewrite Nat2Z.id.
Qed.

Lemma index_not_nat {A} (l l' : list A) (i : Z) :
  (∀ n : nat, i = Z.of_nat n → l' !! n = l !! n) →
  Js.index l' i = Js.index l i.
Proof.
  intros Hn. unfold Js.index. destruct (i <? 0) eqn:E; [done|].
  apply Z.ltb_ge in E. apply Hn. lia.
Qed.

(** Where the index goes when the entry at [from] moves one step. *)
Lemma adjacent_swap_index {A} (l l' : list A) (from : nat) (d cur : Z) :
  d = 1 ∨ d = -1 →
  0 ≤ Z.of_nat from + d < Z.of_nat (length l) →
  spliceMove from (Z.to_nat (Z.of_nat from + d)) l = Some l' →
  Js.index l'
    (if cur =? Z.of_nat from then Z.of_nat from + d
     else if cur =? Z.of_nat from + d then Z.of_nat from else cur)
  = Js.index l cur.
Proof.
  intros Hd Hrange Hsp.
  assert (Hfrom : (from < length l)%nat).
  { unfold spliceMove in Hsp. destruct (l !! from) eqn:Hl; [|done].
    by eapply lookup_lt_Some. }
  assert (∃ i : nat, (S i < length l)%nat
            ∧ (from = i ∧ d = 1 ∨ from = S i ∧ d = -1)) as (i & Hi & Hcase).
  { destruct Hd as [-> | ->].
    - exists from. split; [lia|by left].
    - destruct from as [|i]; [lia|]. exists i. split; [lia|by right]. }
  destruct (split_adjacent l i Hi) as (l1 & x & y & l2 & -> & Hl1).
  subst i.
  assert (Hl' : l' = l1 ++ y :: x :: l2).
  { destruct Hcase as [[-> ->] | [-> ->]].
    - replace (Z.to_nat (Z.of_nat (length l1) + 1)) with (S (length l1)) in Hsp
        by lia.
      rewrite spliceMove_down in Hsp. by simplify_eq.
    - replace (Z.to_nat (Z.of_nat (S (length l1)) + -1)) with (length l1)
        in Hsp by lia.
      rewrite spliceMove_up in Hsp. by simplify_eq. }
  subst l'.
  assert (Hx : (l1 ++ x :: y :: l2) !! length l1 = Some x)
    by (by apply list_lookup_middle).
  assert (Hy : (l1 ++ x :: y :: l2) !! S (length l1) = Some y).
  { replace (l1 ++ x :: y :: l2) with ((l1 ++ [x]) ++ y :: l2)
      by (by rewrite <- app_assoc).
    apply list_lookup_middle. rewrite length_app. simpl. lia. }
  assert (Hlo : ∀ cur', cur' = Z.of_nat (length l1) →
            Js.index (l1 ++ x :: y :: l2) cur' = Some x).
  { intros ? ->. by rewrite index_nat. }
  assert (Hhi : ∀ cur', cur' = Z.of_nat (length l1) + 1 →
            Js.index (l1 ++ x :: y :: l2) cur' = Some y).
  { intros ? ->. replace (Z.of_nat (length l1) + 1) with (Z.of_nat (S (length l1)))
      by lia. by rewrite index_nat. }
  assert (Hlo' : ∀ cur', cur' = Z.of_nat (length l1) →
            Js.index (l1 ++ y :: x :: l2) cur' = Some y).
  { intros ? ->. rewrite index_nat, swap_lookup. by rewrite decide_True. }
  assert (Hhi' : ∀ cur', cur' = Z.of_nat (length l1) + 1 →
            Js.index (l1 ++ y :: x :: l2) cur' = Some x).
  { intros ? ->. replace (Z.of_nat (length l1) + 1) with (Z.of_nat (S (length l1)))
      by lia. rewrite index_nat, swap_lookup.
    rewrite decide_False by lia. by rewrite decide_True. }
  assert (Hother : ∀ cur', cur' ≠ Z.of_nat (length l1) →
            cur' ≠ Z.of_nat (length l1) + 1 →
            Js.index (l1 ++ y :: x :: l2) cur'
            = Js.index (l1 ++ x :: y :: l2) cur').
  { intros cur' H1 H2. apply index_not_nat. intros n ->.
    rewrite swap_lookup. rewrite !decide_False by lia. done. }
  destruct Hcase as [[-> ->] | [-> ->]].
  - destruct (cur =? Z.of_nat (length l1)) eqn:E1.
    { apply Z.eqb_eq in E1. by rewrite Hhi', (Hlo cur). }
    destruct (cur =? Z.of_nat (length l1) + 1) eqn:E2.
    { apply Z.eqb_eq in E2. by rewrite Hlo', (Hhi cur). }
    apply Z.eqb_neq in E1, E2. by apply Hother.
  - destruct (cur =? Z.of_nat (S (length l1))) eqn:E1.
    { apply Z.eqb_eq in E1. rewrite Hlo' by lia. symmetry. apply Hhi. lia. }
    destruct (cur =? Z.of_nat (S (length l1)) + -1) eqn:E2.
    { apply Z.eqb_eq in E2. rewrite Hhi' by lia. symmetry. apply Hlo. lia. }
    apply Z.eqb_neq in E1, E2. apply Hother; lia.
Qed.

(** One step of [movePage], up or down, keeps the current page: the index
    follows the page it pointed to. *)
Lemma movePage_follows_current (fromIndex : nat) (direction : Z) st st' :
  direction = 1 ∨ direction = -1 →
  movePage fromIndex direction st = Some st' →
  id <$> Js.index (pages st') (currentIndex st')
  = id <$> Js.index (pages st) (currentIndex st).
Proof.
  intros Hdir Hmove. unfold movePage in Hmove.
  destruct (saveCurrentState_ids st) as [Hids Hidx].
  rewrite <- !index_fmap.
  destruct (_ || _) eqn:Hrange.
  { simplify_eq. by rewrite Hids, Hidx. }
  apply orb_false_iff in Hrange as [Hlo Hhi].
  apply Z.ltb_ge in Hlo. rewrite Z.geb_leb in Hhi. apply Z.leb_gt in Hhi.
  destruct (spliceMove _ _ (pages (saveCurrentState st)))
    as [newPages|] eqn:Hsp; [|done].
  simpl in Hmove.
  assert (Hsp' : spliceMove fromIndex
                   (Z.to_nat (Z.of_nat fromIndex + direction))
                   (id <$> pages st) = Some (id <$> newPages)).
  { by rewrite <- Hids, spliceMove_fmap, Hsp. }
  pose proof (adjacent_swap_index (id <$> pages st) (id <$> newPages)
                fromIndex direction (currentIndex st) Hdir) as Hswap.
  rewrite length_fmap in Hswap. specialize (Hswap (conj Hlo Hhi) Hsp').
  rewrite <- Hswap.
  destruct (currentIndex st =? Z.of_nat fromIndex);
    [|destruct (currentIndex st =? Z.of_nat fromIndex + direction)];
    simplify_eq; simpl; by rewrite ?Hidx.
Qed.

(** A drop never moves the current index. *)
Lemma onDrop_currentIndex (idx : nat) st st' :
  onDrop idx st = Some st' → currentIndex st' = currentIndex st.
Proof.
  unfold onDrop. destruct (draggedIndex st); [|by intros [= <-]].
  destruct (spliceMove _ _ _); simpl; [|done]. by intros [= <-].
Qed.

End ReorderFacts.

(** * Further properties of the editor *)

(** ** The page store under saves *)

Section SaveMore.
Context `{Platform}.

Lemma saveCurrentState_cases st :
  saveCurrentState st = st
  ∨ ∃ canvas page,
      fabricCanvas st = Some canvas ∧ isUpdatingRef st = false
      ∧ Js.index (pages st) (currentIndex st) = Some page ∧ id page ≠ "".
Proof.
  unfold saveCurrentState.
  destruct (fabricCanvas st) as [canvas|]; [|by left].
  destruct (currentIndex st =? -1); [by left|].
  destruct (isUpdatingRef st); [by left|]. simpl.
  destruct (Js.index (pages st) (currentIndex st)) as [page|]; [|by left].
  destruct (String.eqb (id page) "") eqn:Hid; [by left|].
  right. exists canvas, page. apply String.eqb_neq in Hid. done.
Qed.

(** X1: a second save right after a save writes nothing: the store already
    holds the snapshot, and the updater returns the list it was given. *)
Theorem save_twice_writes_once (st : App) :
  pages (saveCurrentState (saveCurrentState st)) = pages (saveCurrentState st).
Proof.
  destruct (saveCurrentState_cases st) as [Hsame|(canvas & page & Hc & Hu & Hp & Hid)].
  { by rewrite !Hsame. }
  pose proof (saveCurrentState_ready st canvas page Hc Hu Hp Hid) as Hsave.
  simpl in Hsave.
  set (json := toJSON savedProperties canvas (heap st)) in *.
  destruct (savePages_current (currentIndex st) json (pages st) page Hp)
    as (page' & Hp' & Hdata & Hid').
  rewrite Hsave.
  set (st1 := log_snapshot json
                (set_pages (savePages (currentIndex st) (id page) json) st)).
  assert (Hid1 : id page' ≠ "") by (by rewrite Hid').
  rewrite (saveCurrentState_ready st1 canvas page' Hc Hu Hp' Hid1).
  change (toJSON savedProperties canvas (heap st1)) with json.
  simpl. unfold savePages at 1. rewrite Hp', String.eqb_refl. simpl.
  by rewrite bool_decide_true.
Qed.

(** X2: a save keeps the number of pages and, of every page, the id, the
    source, the thumbnail, the size and the rotation; a page that is not
    the current one is left as it is. *)
Theorem save_touches_current_scene_only (st : App) (j : nat) (p : Page) :
  pages st !! j = Some p →
  length (pages (saveCurrentState st)) = length (pages st)
  ∧ ∃ p', pages (saveCurrentState st) !! j = Some p'
          ∧ id p' = id p ∧ pdfBytes p' = pdfBytes p ∧ pageNum p' = pageNum p
          ∧ thumb p' = thumb p ∧ width p' = width p ∧ height p' = height p
          ∧ rotation p' = rotation p
          ∧ (Z.of_nat j ≠ currentIndex st → p' = p).
Proof.
  intros Hj.
  destruct (saveCurrentState_cases st) as [->|(canvas & page & Hc & Hu & Hp & Hid)].
  { split; [done|]. exists p. by repeat split. }
  rewrite (saveCurrentState_ready st canvas page Hc Hu Hp Hid). simpl.
  split; [apply savePages_length|].
  unfold savePages. rewrite Hp, String.eqb_refl. simpl.
  case_bool_decide; [exists p; by repeat split|].
  destruct (index_Some_inv _ _ _ Hp) as [Hge Hl].
  destruct (decide (j = Z.to_nat (currentIndex st))) as [->|Hne].
  - simplify_eq. exists (set_fabricData (toJSON savedProperties canvas (heap st)) p).
    split; [apply list_lookup_insert_eq; by eapply lookup_lt_Some|].
    repeat split; try done. intros Hcontra. lia.
  - exists p. split; [by rewrite list_lookup_insert_ne|]. by repeat split.
Qed.

End SaveMore.

Lemma save_touches_current_scene_only_witness :
  let P := Reference.platform 0 in
  let A := Reference.page "A" None 0 None in
  let B := Reference.page "B" None 90 None in
  let st := Samples.editor [A; B] 0 Samples.allVariants None in
  length (pages (saveCurrentState st)) = 2%nat
  ∧ pages (saveCurrentState st) !! 1%nat = Some B.
Proof.
  intros P A B st.
  destruct (save_touches_current_scene_only st 1 B eq_refl)
    as (Hlen & p' & Hp' & _ & _ & _ & _ & _ & _ & _ & Hsame).
  split; [exact Hlen|]. rewrite Hp'. f_equal. apply Hsame. discriminate.
Defined.

(** ** What a page load leaves behind *)

Section LoadMore.
Context `{Platform}.

Lemma addObject_updating_full o st c :
  fabricCanvas st = Some c → isUpdatingRef st = true →
  fabricCanvas (addObject o st)
    = Some {| cv_width := cv_width c; cv_height := cv_height c;
              backgroundColor := backgroundColor c;
              backgroundImage := backgroundImage c;
              _objects := _objects c ++ [nextRef st];
              _activeObject := _activeObject c |}
  ∧ heap (addObject o st) = <[nextRef st := o]> (heap st)
  ∧ nextRef (addObject o st) = S (nextRef st)
  ∧ isUpdatingRef (addObject o st) = true
  ∧ timers (addObject o st)
    = timers st ++ (if isMosaic o then [Timeout 50 (nextRef st)] else [])
  ∧ pages (addObject o st) = pages st
  ∧ currentIndex (addObject o st) = currentIndex st
  ∧ snapshots (addObject o st) = snapshots st
  ∧ properties (addObject o st) = properties st.
Proof.
  intros Hc Hu. unfold addObject, handleObjectAdded.
  rewrite saveCurrentState_updating.
  - unfold deref. simpl. rewrite lookup_total_insert_eq.
    destruct (isMosaic o); simpl; rewrite Hc; simpl; by rewrite ?app_nil_r.
  - unfold deref. simpl. by destruct (isMosaic _).
Qed.

(** Bringing the records back, one by one. *)
Lemma foldl_addObject_full recs : ∀ st c,
  fabricCanvas st = Some c → isUpdatingRef st = true →
  let st' := foldl (λ st rec, addObject (enliven rec) st) st recs in
  let new := seq (nextRef st) (length recs) in
  fabricCanvas st'
    = Some {| cv_width := cv_width c; cv_height := cv_height c;
              backgroundColor := backgroundColor c;
              backgroundImage := backgroundImage c;
              _objects := _objects c ++ new;
              _activeObject := _activeObject c |}
  ∧ (∀ r, (r < nextRef st)%nat → heap st' !! r = heap st !! r)
  ∧ deref st' <$> new = enliven <$> recs
  ∧ nextRef st' = (nextRef st + length recs)%nat
  ∧ isUpdatingRef st' = true
  ∧ timers st'
    = timers st ++ (Timeout 50 <$> filter (λ r, isMosaic (deref st' r) = true) new)
  ∧ pages st' = pages st
  ∧ currentIndex st' = currentIndex st
  ∧ snapshots st' = snapshots st
  ∧ properties st' = properties st.
Proof.
  induction recs as [|rec recs IH]; intros st c Hc Hu; simpl.
  - rewrite !app_nil_r, Nat.add_0_r. destruct c. by repeat split.
  - destruct (addObject_updating_full (enliven rec) st c Hc Hu)
      as (Hc1 & Hh1 & Hn1 & Hu1 & Ht1 & Hp1 & Hi1 & Hs1 & Hpr1).
    destruct (IH _ _ Hc1 Hu1)
      as (Hc' & Hh' & Hd' & Hn' & Hu' & Ht' & Hp' & Hi' & Hs' & Hpr').
    simpl in *. rewrite Hn1 in *.
    assert (Hnew : deref (foldl (λ st rec, addObject (enliven rec) st)
                            (addObject (enliven rec) st) recs) (nextRef st)
                   = enliven rec).
    { apply deref_Some. rewrite Hh' by lia. rewrite Hh1.
      apply lookup_insert_eq. }
    split; [|split; [|split; [|split; [|split; [|split]]]]].
    + rewrite Hc'. f_equal. f_equal. by rewrite <- app_assoc.
    + intros r Hr. rewrite Hh' by lia. rewrite Hh1.
      apply lookup_insert_ne. lia.
    + rewrite Hnew. f_equal. exact Hd'.
    + rewrite Hn'. lia.
    + done.
    + rewrite Ht', Ht1, <- app_assoc. f_equal.
      rewrite filter_cons, Hnew.
      destruct (isMosaic (enliven rec)) eqn:Hm.
      * by rewrite decide_True.
      * by rewrite decide_False.
    + repeat split; congruence.
Qed.

Lemma scheduleMosaics_full st :
  timers (scheduleMosaics st)
    = timers st
      ++ (Timeout 100 <$> filter (λ r, isMosaic (deref st r) = true)
                            (from_option _objects [] (fabricCanvas st)))
  ∧ fabricCanvas (scheduleMosaics st) = fabricCanvas st
  ∧ heap (scheduleMosaics st) = heap st
  ∧ pages (scheduleMosaics st) = pages st
  ∧ currentIndex (scheduleMosaics st) = currentIndex st
  ∧ snapshots (scheduleMosaics st) = snapshots st
  ∧ properties (scheduleMosaics st) = properties st.
Proof.
  unfold scheduleMosaics.
  generalize (from_option _objects [] (fabricCanvas st)).
  intros objs. revert st. induction objs as [|obj objs IH]; intros st; simpl.
  - rewrite app_nil_r. by repeat split.
  - rewrite filter_cons. destruct (isMosaic (deref st obj)) eqn:Hm.
    + rewrite decide_True by done.
      destruct (IH (set_timers (λ ts, ts ++ [Timeout 100 obj]) st))
        as (Ht & ? & ? & ? & ? & ? & ?).
      split; [|by repeat split].
      rewrite Ht. simpl. rewrite <- app_assoc. done.
    + rewrite decide_False by (simpl; congruence). apply IH.
Qed.

Lemma clearCanvas_updating_full st c :
  fabricCanvas st = Some c → isUpdatingRef st = true →
  clearCanvas st
  = set_canvas (λ c, {| cv_width := cv_width c; cv_height := cv_height c;
                        backgroundColor := ""; backgroundImage := None;
                        _objects := []; _activeObject := None |}) st.
Proof.
  intros Hc Hu. unfold clearCanvas. by rewrite foldl_handleSave_updating.
Qed.

(** What [loadObjects] does to a canvas that a load has emptied. *)
Lemma loadObjects_full page st c :
  fabricCanvas st = Some c → isUpdatingRef st = true →
  let recs := from_option doc_objects [] (fabricData page) in
  let new := seq (nextRef st) (length recs) in
  let st' := loadObjects page st in
  (∃ c', fabricCanvas st' = Some c'
         ∧ cv_width c' = cv_width c ∧ cv_height c' = cv_height c
         ∧ (if fabricData page is Some _
            then _objects c' = new ∧ _activeObject c' = None
            else c' = c))
  ∧ deref st' <$> new = enliven <$> recs
  ∧ isUpdatingRef st' = false
  ∧ timers st'
    = timers st
      ++ (Timeout 50 <$> filter (λ r, isMosaic (deref st' r) = true) new)
      ++ (Timeout 100 <$> filter (λ r, isMosaic (deref st' r) = true) new)
  ∧ pages st' = pages st
  ∧ currentIndex st' = currentIndex st
  ∧ snapshots st' = snapshots st
  ∧ properties st' = properties st.
Proof.
  intros Hc Hu recs new st'. subst recs new st'. unfold loadObjects.
  destruct (fabricData page) as [data|]; simpl.
  2:{ rewrite app_nil_r. split; [eauto|]. by repeat split. }
  unfold loadFromJSON. rewrite (clearCanvas_updating_full st c Hc Hu).
  set (st0 := set_canvas _ st).
  destruct (foldl_addObject_full (doc_objects data) st0
              {| cv_width := cv_width c; cv_height := cv_height c;
                 backgroundColor := ""; backgroundImage := None;
                 _objects := []; _activeObject := None |})
    as (Hc' & Hh' & Hd' & Hn' & Hu' & Ht' & Hp' & Hi' & Hs' & Hpr').
  { subst st0. simpl. by rewrite Hc. }
  { done. }
  simpl in Hc'.
  set (st1 := foldl (λ st rec, addObject (enliven rec) st) st0 (doc_objects data)) in *.
  destruct (scheduleMosaics_full st1) as (Ht2 & Hc2 & Hh2 & Hp2 & Hi2 & Hs2 & Hpr2).
  rewrite Hc' in Ht2. simpl in Ht2.
  split; [|split; [|split; [|split]]].
  - rewrite Hc2, Hc'. eexists. split; [done|]. by repeat split.
  - unfold deref in *. simpl. by rewrite Hh2.
  - done.
  - simpl. rewrite Ht2, Ht'. unfold deref. simpl. rewrite Hh2.
    by rewrite <- app_assoc.
  - simpl. by rewrite Hp2, Hp', Hi2, Hi', Hs2, Hs', Hpr2, Hpr'.
Qed.

(** The state [loadPage] hands to [loadObjects]. *)
Lemma loadPage_unfold st page c :
  Js.index (pages st) (currentIndex st) = Some page →
  fabricCanvas st = Some c →
  ∃ st0 c0,
    loadPage st = loadObjects page st0
    ∧ fabricCanvas st0 = Some c0 ∧ isUpdatingRef st0 = true
    ∧ cv_width c0 = Dimensions.load_cw page
    ∧ cv_height c0 = Dimensions.load_ch page
    ∧ _objects c0 = [] ∧ _activeObject c0 = None
    ∧ heap st0 = heap st ∧ nextRef st0 = nextRef st ∧ timers st0 = timers st
    ∧ pages st0 = pages st ∧ currentIndex st0 = currentIndex st
    ∧ snapshots st0 = snapshots st ∧ properties st0 = properties st.
Proof.
  intros Hp Hc. unfold loadPage. rewrite Hp, Hc.
  set (st1 := setDimensions _ _ (set_isUpdatingRef true st)).
  rewrite (clearCanvas_updating_full st1
             {| cv_width := Dimensions.load_cw page;
                cv_height := Dimensions.load_ch page;
                backgroundColor := backgroundColor c;
                backgroundImage := backgroundImage c;
                _objects := _objects c; _activeObject := _activeObject c |});
    [|by (subst st1; simpl; rewrite Hc)|done].
  destruct (negb (String.eqb (thumb page) "")).
  - destruct (imageSize (thumb page)) as [iw ih].
    eexists _, _. split; [reflexivity|]. subst st1. simpl. rewrite Hc. simpl.
    by repeat split.
  - eexists _, _. split; [reflexivity|]. subst st1. simpl. rewrite Hc. simpl.
    by repeat split.
Qed.



(** X5: the load schedules the bakes of the mosaic objects of the scene
    and nothing else: after the callbacks that were pending come one bake
    at 50 ms for each mosaic object on the canvas, back to front, and then
    one bake at 100 ms for each of them. *)
Theorem load_schedules_mosaics (st : App) (page : Page) (c : Canvas) :
  Js.index (pages st) (currentIndex st) = Some page →
  fabricCanvas st = Some c →
  let st' := loadPage st in
  let objs := from_option _objects [] (fabricCanvas st') in
  let mosaicObjs := filter (λ r, isMosaic (deref st' r) = true) objs in
  timers st'
  = timers st ++ (Timeout 50 <$> mosaicObjs) ++ (Timeout 100 <$> mosaicObjs).
Proof.
  intros Hp Hc st' objs mosaicObjs. subst st' objs mosaicObjs.
  destruct (loadPage_unfold st page c Hp Hc)
    as (st0 & c0 & -> & Hc0 & Hu0 & _ & _ & Ho0 & _ & _ & _ & Ht0 & _).
  destruct (loadObjects_full page st0 c0 Hc0 Hu0)
    as ((c' & Hc' & _ & _ & Hobj) & _ & _ & Ht' & _).
  rewrite Ht', Ht0, Hc'. simpl.
  destruct (fabricData page); simpl in *.
  - by destruct Hobj as [-> _].
  - subst. by rewrite Ho0.
Qed.

End LoadMore.


Lemma load_schedules_mosaics_witness :
  let P := Reference.platform 0 in
  let region := Samples.mosaic (JNum 10) 200 120 in
  let p1 :=
    Reference.page "p1" None 0 (Some (Samples.saved [Samples.text; region])) in
  let st := Samples.editor [p1] 0 [] None in
  timers (loadPage st) = [Timeout 50 1%nat; Timeout 100 1%nat].
Proof.
  intros P region p1 st.
  etransitivity.
  - exact (load_schedules_mosaics st p1
             {| cv_width := 1190; cv_height := 1684; backgroundColor := "";
                backgroundImage := None; _objects := [];
                _activeObject := None |} eq_refl eq_refl).
  - vm_compute. reflexivity.
Defined.

(** ** Callbacks *)

Section CallbackMore.
Context `{Platform}.


Lemma pendingWork_app ts1 ts2 :
  pendingWork (ts1 ++ ts2) = (pendingWork ts1 + pendingWork ts2)%nat.
Proof.
  induction ts1 as [|t ts1 IH]; simpl; [done|].
  unfold pendingWork in *. simpl. rewrite IH. lia.
Qed.

Lemma pendingWork_delete ts i t :
  ts !! i = Some t →
  (pendingWork (delete i ts) + pendingWork [t] = pendingWork ts)%nat.
Proof.
  revert i. induction ts as [|a ts IH]; intros [|i] Hi; simplify_eq/=.
  - unfold pendingWork. simpl. lia.
  - specialize (IH i Hi). unfold pendingWork in *. simpl in *. lia.
Qed.

(** X7: the pending callbacks always drain: firing one of them lowers the
    work left, counting two for a scheduled bake and one for an
    [img.onload], so n pending bakes are over after at most 2n
    firings. *)
Theorem callbacks_drain (i : nat) (st : App) :
  (i < length (timers st))%nat →
  (pendingWork (timers (fire i st)) < pendingWork (timers st))%nat.
Proof.
  intros Hi. unfold fire.
  destruct (timers st !! i) as [t|] eqn:Ht;
    [|apply lookup_ge_None in Ht; lia].
  pose proof (pendingWork_delete _ _ _ Ht) as Hdel.
  destruct t as [ms obj|obj rect dataUrl]; simpl.
  - destruct (updateMosaicContent_cases obj (set_timers (delete i) st))
      as [->|(rect & url & ->)]; simpl.
    + unfold pendingWork in *. simpl in *. lia.
    + rewrite pendingWork_app. unfold pendingWork in *. simpl in *. lia.
  - unfold imgOnload. simpl. unfold pendingWork in *. simpl in *. lia.
Qed.

End CallbackMore.

Lemma callbacks_drain_witness :
  let P := Reference.platform 0 in
  let region := Samples.mosaic (JNum 10) 200 120 in
  let p1 := Reference.page "p1" None 0 (Some (Samples.saved [region])) in
  let st := loadPage (Samples.editor [p1] 0 [] None) in
  (pendingWork (timers (fire 0 st)) < 4)%nat.
Proof.
  intros P region p1 st.
  assert (Hlen : (0 < length (timers st))%nat) by (vm_compute; lia).
  exact (callbacks_drain 0 st Hlen).
Defined.

(** ** Style edits, object by object *)

Section StyleMore.
Context `{Platform}.

(** X8: a colour edit respects the kind of the object: a text always takes
    the colour as its fill; on any other object a transparent fill, the
    fill of a mosaic region and the fill of an image stay as they are; an
    object without stroke, or with a transparent one, is not given one;
    and no other property, nor the element, changes. *)
Theorem colour_edit_respects_kind (value : JsVal) (st : App) (obj : ObjRef)
    (o : FabricObject) :
  heap st !! obj = Some o →
  let o' := deref (styleObject "color" value st obj) obj in
  (get "type" o = Some (JStr "i-text") → get "fill" o' = Some value)
  ∧ (get "type" o ≠ Some (JStr "i-text") →
     get "fill" o = Some (JStr "transparent") ∨ isMosaic o = true
       ∨ get "type" o = Some (JStr "image") →
     get "fill" o' = get "fill" o)
  ∧ (truthy (get "stroke" o) = false
       ∨ get "stroke" o = Some (JStr "transparent") →
     get "stroke" o' = get "stroke" o)
  ∧ (∀ key, key ≠ "fill" → key ≠ "stroke" → get key o' = get key o)
  ∧ _element o' = _element o.
Proof.
  intros Ho o'. subst o'. unfold styleObject. simpl String.eqb. cbv iota.
  rewrite (deref_Some _ _ _ Ho).
  set (c1 := negb (bool_decide (get "fill" o = Some (JStr "transparent")))
             && negb (isMosaic o)
             && negb (bool_decide (get "type" o = Some (JStr "image")))).
  set (o1 := if c1 then set "fill" (Some value) o else o).
  set (st1 := if c1 then mutate (set "fill" (Some value)) obj st else st).
  assert (Ho1 : heap st1 !! obj = Some o1).
  { subst st1 o1. destruct c1; [by apply lookup_mutate_eq|done]. }
  rewrite (deref_Some _ _ _ Ho1).
  set (c2 := truthy (get "stroke" o1)
             && negb (bool_decide (get "stroke" o1 = Some (JStr "transparent")))).
  set (o2 := if c2 then set "stroke" (Some value) o1 else o1).
  set (st2 := if c2 then mutate (set "stroke" (Some value)) obj st1 else st1).
  assert (Ho2 : heap st2 !! obj = Some o2).
  { subst st2 o2. destruct c2; [by apply lookup_mutate_eq|done]. }
  rewrite (deref_Some _ _ _ Ho2).
  set (c3 := bool_decide (get "type" o2 = Some (JStr "i-text"))).
  set (o3 := if c3 then set "fill" (Some value) o2 else o2).
  set (st3 := if c3 then mutate (set "fill" (Some value)) obj st2 else st2).
  assert (Ho3 : heap st3 !! obj = Some o3).
  { subst st3 o3. destruct c3; [by apply lookup_mutate_eq|done]. }
  rewrite (deref_Some _ _ _ Ho3).
  assert (Hstroke1 : get "stroke" o1 = get "stroke" o).
  { subst o1. destruct c1; [by rewrite get_set_ne|done]. }
  assert (Htype2 : get "type" o2 = get "type" o).
  { subst o2 o1. destruct c2, c1; by rewrite ?get_set_ne. }
  assert (Hfill2 : get "fill" o2 = get "fill" o1).
  { subst o2. destruct c2; [by rewrite get_set_ne|done]. }
  split; [|split; [|split; [|split]]].
  - intros Htype. subst o3 c3. rewrite Htype2, Htype.
    rewrite bool_decide_true by done. apply get_set.
  - intros Htype Hkind. subst o3 c3. rewrite Htype2.
    rewrite bool_decide_false by done. rewrite Hfill2.
    subst o1. replace c1 with false; [done|].
    subst c1. destruct Hkind as [Hf|[Hm|Hi]].
    + by rewrite Hf, bool_decide_true.
    + rewrite Hm. simpl. by rewrite andb_false_r.
    + rewrite Hi.
      rewrite (bool_decide_true (Some (JStr "image") = Some (JStr "image")))
        by done.
      simpl. by rewrite andb_false_r.
  - intros Hs.
    assert (Hc2 : c2 = false).
    { subst c2. rewrite Hstroke1. destruct Hs as [Hs|Hs]; rewrite Hs; [done|].
      rewrite bool_decide_true by done. simpl. by rewrite ?andb_false_r. }
    subst o3 o2. rewrite Hc2.
    destruct c3; rewrite ?get_set_ne by done; exact Hstroke1.
  - intros key Hf Hs. subst o3 o2 o1.
    destruct c3, c2, c1; by rewrite ?get_set_ne.
  - subst o3 o2 o1. by destruct c3, c2, c1.
Qed.

Lemma Qtrunc_inject_Z (n : Z) : Qtrunc (inject_Z n) = n.
Proof. unfold Qtrunc, inject_Z. simpl. apply Z.quot_1_r. Qed.

Lemma Qzero_inject_Z (n : Z) : n ≠ 0 → Qzero (inject_Z n) = false.
Proof. intros Hn. unfold Qzero, inject_Z. simpl. by apply Z.eqb_neq. Qed.

Lemma Qround_quarter (n : Z) : Qround ((inject_Z n * 4) / 4) = n.
Proof.
  unfold Qround, Qfloor, Qdiv, Qmult, Qplus, Qinv, inject_Z. simpl.
  symmetry. apply (Z.div_unique _ _ _ 4); lia.
Qed.

(** X9: the size set with the size slider is the size the tool properties
    show when the object is selected again, for a mosaic region (block
    size), a text (a quarter of the font size, rounded) and an object with
    a stroke (stroke width). *)
Theorem size_edit_read_back (n : Z) (st : App) (obj : ObjRef)
    (o : FabricObject) :
  heap st !! obj = Some o →
  1 ≤ n →
  isMosaic o = true ∨ get "type" o = Some (JStr "i-text")
    ∨ truthy (get "stroke" o) = true →
  properties
    (syncProperties obj (styleObject "size" (JNum (inject_Z n)) st obj))
    !! "size"
  = Some (JNum (inject_Z n)).
Proof.
  intros Ho Hn Hkind.
  assert (Hnz : Qzero (inject_Z n) = false) by (apply Qzero_inject_Z; lia).
  unfold styleObject. simpl String.eqb. cbv iota.
  rewrite (deref_Some _ _ _ Ho). unfold parseInt. rewrite Qtrunc_inject_Z.
  unfold syncProperties. simpl properties.
  rewrite lookup_partial_alter_eq.
  destruct (isMosaic o) eqn:Hm.
  { unfold deref. rewrite updateMosaicContent_heap.
    rewrite (lookup_total_correct _ _ _
               (lookup_mutate_eq _ _ _ _ Ho)).
    unfold isMosaic in *. rewrite get_set_ne by done. rewrite Hm.
    rewrite get_set. unfold Js.or. simpl. by rewrite Hnz. }
  destruct (bool_decide (get "type" o = Some (JStr "i-text"))) eqn:Ht.
  { rewrite (deref_mutate_eq _ _ _ _ Ho).
    unfold isMosaic in *. rewrite !get_set_ne by done. rewrite Hm, Ht.
    rewrite get_set. unfold times4, roundQuarter, Js.or. simpl.
    assert (Qzero (inject_Z n * 4) = false) as ->.
    { unfold Qzero, Qmult, inject_Z. simpl. apply Z.eqb_neq. lia. }
    simpl. by rewrite Qround_quarter. }
  destruct Hkind as [?|[Ht'|Hs]]; [done| |].
  { by rewrite bool_decide_true in Ht. }
  rewrite Hs. rewrite (deref_mutate_eq _ _ _ _ Ho).
  unfold isMosaic in *. rewrite !get_set_ne by done. rewrite Hm, Ht.
  rewrite get_set. simpl. by rewrite Hnz.
Qed.

End StyleMore.

Lemma colour_edit_respects_kind_witness :
  let P := Reference.platform 0 in
  let st := Samples.editor [Reference.page "p1" None 0 None] 0
              [Samples.outlinedRect; Samples.text] None in
  get "fill" (deref (styleObject "color" (JStr "#22c55e") st 0%nat) 0%nat)
    = Some (JStr "transparent")
  ∧ get "fill" (deref (styleObject "color" (JStr "#22c55e") st 1%nat) 1%nat)
    = Some (JStr "#22c55e").
Proof.
  intros P st.
  destruct (colour_edit_respects_kind (JStr "#22c55e") st 0%nat
              Samples.outlinedRect eq_refl) as (_ & Hkeep & _).
  destruct (colour_edit_respects_kind (JStr "#22c55e") st 1%nat
              Samples.text eq_refl) as (Htext & _).
  split.
  - rewrite Hkeep; [reflexivity|discriminate|by left].
  - apply Htext. reflexivity.
Defined.

Lemma size_edit_read_back_witness :
  let P := Reference.platform 0 in
  let st := Samples.editor [Reference.page "p1" None 0 None] 0
              [Samples.text] None in
  properties (syncProperties 0%nat (styleObject "size" (JNum 7) st 0%nat))
    !! "size" = Some (JNum 7).
Proof.
  intros P st.
  assert (H1 : 1 ≤ 7) by lia.
  exact (size_edit_read_back 7 st 0%nat Samples.text eq_refl H1
           (or_intror (or_introl eq_refl))).
Defined.

(** ** Reordering, rotating and removing pages *)

Section PageListMore.
Context `{Platform}.

Lemma spliceMove_Permutation {A} (from to : nat) (l l' : list A) :
  spliceMove from to l = Some l' → l' ≡ₚ l.
Proof.
  unfold spliceMove. destruct (l !! from) as [x|] eqn:Hx; [|done].
  simpl. intros [= <-].
  rewrite <- Permutation_middle, take_drop. symmetry.
  by apply delete_Permutation.
Qed.

Lemma spliceMove_lookup {A} (from to : nat) (l l' : list A) :
  spliceMove from to l = Some l' → (to < length l)%nat →
  l' !! to = l !! from.
Proof.
  unfold spliceMove. destruct (l !! from) as [x|] eqn:Hx; [|done].
  simpl. intros [= <-] Hto.
  assert (Hlen : length (delete from l) = (length l - 1)%nat).
  { apply length_delete. by eexists. }
  apply list_lookup_middle. rewrite length_take. lia.
Qed.

(** X10: one step of [movePage] up or down only permutes the pages (no id
    is lost or repeated) and the current index follows the page it
    designated. *)
Theorem step_reorder_keeps_active_page (fromIndex : nat) (direction : Z)
    (st st' : App) :
  direction = 1 ∨ direction = -1 →
  movePage fromIndex direction st = Some st' →
  id <$> pages st' ≡ₚ id <$> pages st
  ∧ id <$> Js.index (pages st') (currentIndex st')
    = id <$> Js.index (pages st) (currentIndex st).
Proof.
  intros Hdir Hmove. split; [|by eapply movePage_follows_current].
  unfold movePage in Hmove.
  destruct (saveCurrentState_ids st) as [Hids _].
  destruct (_ || _).
  { simplify_eq. by rewrite Hids. }
  destruct (spliceMove _ _ (pages (saveCurrentState st)))
    as [newPages|] eqn:Hsp; [|done].
  apply spliceMove_Permutation in Hsp. simpl in Hmove.
  assert (pages st' = newPages) as ->.
  { repeat case_match; by simplify_eq. }
  by rewrite Hsp, Hids.
Qed.

(** X11: a drop puts the dragged page at the position it was dropped on,
    only permutes the pages, ends the drag and leaves the current index
    where it was. *)
Theorem drop_places_dragged_page (idx dragged : nat) (st st' : App) :
  draggedIndex st = Some dragged →
  (idx < length (pages st))%nat →
  onDrop idx st = Some st' →
  pages st' !! idx = pages st !! dragged
  ∧ pages st' ≡ₚ pages st
  ∧ draggedIndex st' = None ∧ dropTargetIndex st' = None
  ∧ currentIndex st' = currentIndex st.
Proof.
  intros Hd Hidx Hdrop. unfold onDrop in Hdrop. rewrite Hd in Hdrop.
  destruct (spliceMove dragged idx (pages st)) as [newPages|] eqn:Hsp;
    [|done].
  simpl in Hdrop. simplify_eq. simpl.
  split; [by eapply spliceMove_lookup|].
  split; [by eapply spliceMove_Permutation|done].
Qed.

Lemma rem360 (x : Z) :
  0 ≤ x < 720 → Js.rem x 360 = if x <? 360 then x else x - 360.
Proof.
  intros Hx. unfold Js.rem. rewrite Z.rem_mod_nonneg by lia.
  destruct (x <? 360) eqn:E.
  - apply Z.ltb_lt in E. apply Z.mod_small. lia.
  - apply Z.ltb_ge in E. symmetry. apply (Z.mod_unique_pos _ _ 1). lia. lia.
Qed.

Lemma quarter_step (r : Z) :
  0 ≤ r < 360 →
  0 ≤ Js.rem (r + 90) 360 < 360
  ∧ (Js.rem (r + 90) 360 = r + 90 ∨ Js.rem (r + 90) 360 = r - 270).
Proof.
  intros Hr. rewrite rem360 by lia. destruct (r + 90 <? 360) eqn:E.
  - apply Z.ltb_lt in E. lia.
  - apply Z.ltb_ge in E. lia.
Qed.

Lemma rotatePage_lookup idx st j :
  pages (rotatePage idx st) !! j
  = (λ pg, if (j =? idx)%nat
           then set_rotation (Js.rem (rotation pg + 90) 360) pg else pg)
      <$> pages st !! j.
Proof. unfold rotatePage. simpl. apply list_lookup_imap. Qed.

(** X12: the rotate button changes nothing but the rotation of its page:
    every page keeps its id, source, thumbnail, size and stored scene, the
    other pages keep their rotation, and a rotation among 0, 90, 180 and
    270 stays among them. *)
Theorem rotate_touches_rotation_only (idx : nat) (st : App) (j : nat)
    (p : Page) :
  pages st !! j = Some p →
  length (pages (rotatePage idx st)) = length (pages st)
  ∧ ∃ p', pages (rotatePage idx st) !! j = Some p'
          ∧ id p' = id p ∧ pdfBytes p' = pdfBytes p ∧ pageNum p' = pageNum p
          ∧ thumb p' = thumb p ∧ fabricData p' = fabricData p
          ∧ width p' = width p ∧ height p' = height p
          ∧ (j ≠ idx → p' = p)
          ∧ (rotation p ∈ [0; 90; 180; 270] →
             rotation p' ∈ [0; 90; 180; 270]).
Proof.
  intros Hj. split.
  { unfold rotatePage. simpl. apply length_imap. }
  rewrite rotatePage_lookup, Hj. simpl.
  destruct (j =? idx)%nat eqn:E.
  - eexists. split; [done|]. repeat split; try done.
    + apply Nat.eqb_eq in E. done.
    + simpl. intros Hr.
      repeat (apply elem_of_cons in Hr as [->|Hr];
              [vm_compute; set_solver|]).
      by apply elem_of_nil in Hr.
  - exists p. by repeat split.
Qed.

(** X13: four clicks on the rotate button bring the page list back, for a
    page whose rotation is in [0, 360). *)
Theorem rotate_four_times (idx : nat) (st : App) :
  (∀ p, pages st !! idx = Some p → 0 ≤ rotation p < 360) →
  pages (rotatePage idx (rotatePage idx (rotatePage idx (rotatePage idx st))))
  = pages st.
Proof.
  intros Hr. apply list_eq. intros j.
  rewrite !rotatePage_lookup. destruct (pages st !! j) as [p|] eqn:Hj;
    [|done].
  simpl. destruct (j =? idx)%nat eqn:E; [|done].
  apply Nat.eqb_eq in E. subst j. specialize (Hr p Hj).
  f_equal. destruct p as [pid pb pn th fd w h r]. simpl in *.
  unfold set_rotation. simpl. f_equal.
  pose proof (quarter_step r Hr) as [H1 H1'].
  pose proof (quarter_step _ H1) as [H2 H2'].
  pose proof (quarter_step _ H2) as [H3 H3'].
  pose proof (quarter_step _ H3) as [H4 H4'].
  lia.
Qed.

Lemma filterIndex_delete {A} (l : list A) (idx i : nat) :
  filterIndex (λ k, negb (k =? idx)%nat) i l
  = if decide (i ≤ idx)%nat then delete (idx - i)%nat l else l.
Proof.
  revert i. induction l as [|x l IH]; intros i; simpl.
  - by case_decide.
  - rewrite IH. destruct (i =? idx)%nat eqn:E; simpl.
    + apply Nat.eqb_eq in E. subst.
      rewrite decide_False by lia. rewrite decide_True by lia.
      by rewrite Nat.sub_diag.
    + apply Nat.eqb_neq in E. destruct (decide (i ≤ idx)%nat).
      * rewrite decide_True by lia.
        replace (idx - i)%nat with (S (idx - S i)) by lia. done.
      * by rewrite decide_False by lia.
Qed.

(** X14: the delete button removes exactly the page at its position and
    keeps the others in order: a position before it holds the page it
    held, a position from it on holds the page that came next.  As the
    current index is not adjusted, it designates the following page
    whenever a page at or before it is removed. *)
Theorem delete_shifts_pages (idx : nat) (st : App) (j : nat) :
  pages (deletePage idx st) = delete idx (pages st)
  ∧ pages (deletePage idx st) !! j
    = pages st !! (if decide (j < idx)%nat then j else S j)
  ∧ currentIndex (deletePage idx st) = currentIndex st.
Proof.
  assert (Hdel : pages (deletePage idx st) = delete idx (pages st)).
  { unfold deletePage. simpl. rewrite filterIndex_delete.
    rewrite decide_True by lia. by rewrite Nat.sub_0_r. }
  split; [done|]. split; [|done]. rewrite Hdel.
  case_decide.
  - by apply list_lookup_delete_lt.
  - apply list_lookup_delete_ge. lia.
Qed.

End PageListMore.

Lemma step_reorder_keeps_active_page_witness :
  let P := Reference.platform 0 in
  let A := Reference.page "A" None 0 None in
  let B := Reference.page "B" None 0 None in
  let C := Reference.page "C" None 0 None in
  let st := Samples.editor [A; B; C] 1 [] None in
  ∃ st', movePage 1 (-1) st = Some st'
         ∧ id <$> Js.index (pages st') (currentIndex st') = Some "B".
Proof.
  intros P A B C st.
  assert (Hm : ∃ st', movePage 1 (-1) st = Some st')
    by (eexists; vm_compute; reflexivity).
  destruct Hm as [st' Hst']. exists st'. split; [exact Hst'|].
  destruct (step_reorder_keeps_active_page 1 (-1) st st'
              (or_intror eq_refl) Hst') as [_ Hactive].
  rewrite Hactive. reflexivity.
Defined.

Lemma drop_places_dragged_page_witness :
  let A := Reference.page "A" None 0 None in
  let B := Reference.page "B" None 0 None in
  let C := Reference.page "C" None 0 None in
  let st := setDraggedIndex (Some 0%nat) (Samples.editor [A; B; C] 0 [] None) in
  ∃ st', onDrop 2 st = Some st' ∧ pages st' !! 2%nat = Some A.
Proof.
  intros A B C st.
  assert (Hd : ∃ st', onDrop 2 st = Some st') by (eexists; reflexivity).
  destruct Hd as [st' Hst']. exists st'. split; [exact Hst'|].
  assert (Hlen : (2 < length (pages st))%nat) by (simpl; lia).
  destruct (drop_places_dragged_page 2 0 st st' eq_refl Hlen Hst')
    as [Hat _].
  rewrite Hat. reflexivity.
Defined.

Lemma rotate_touches_rotation_only_witness :
  let A := Reference.page "A" None 270 (Some (Samples.saved [Samples.text])) in
  let st := Samples.editor [A] 0 [] None in
  ∃ p', pages (rotatePage 0 st) !! 0%nat = Some p'
        ∧ fabricData p' = fabricData A
        ∧ rotation p' ∈ [0; 90; 180; 270].
Proof.
  intros A st.
  destruct (rotate_touches_rotation_only 0 st 0 A eq_refl)
    as (_ & p' & Hp' & _ & _ & _ & _ & Hdata & _ & _ & _ & Hrot).
  exists p'. split; [exact Hp'|]. split; [exact Hdata|].
  apply Hrot. change (rotation A) with 270.
  apply elem_of_cons; right. apply elem_of_cons; right.
  apply elem_of_cons; right. apply elem_of_cons; by left.
Defined.

Lemma rotate_four_times_witness :
  let A := Reference.page "A" None 270 None in
  let st := Samples.editor [A] 0 [] None in
  pages (rotatePage 0 (rotatePage 0 (rotatePage 0 (rotatePage 0 st))))
  = [A].
Proof.
  intros A st. apply (rotate_four_times 0 st).
  intros p Hp. assert (p = A) as -> by (simpl in Hp; congruence).
  simpl. lia.
Defined.

(** ** The exported document *)

Section ExportMore.
Context `{Platform}.

Lemma exportPage_MediaBox (pageData : Page) :
  MediaBox (exportPage pageData) = MediaBox (targetPage pageData).
Proof.
  unfold exportPage.
  destruct (getSize _) as [pdfWidth pdfHeight].
  destruct (negb _); [|done].
  destruct (rotation pageData =? 0); [done|].
  by destruct (if Js.rem _ 360 =? 90 then _ else _).
Qed.

Lemma exportPage_drawn (pageData : Page) :
  let overlay :=
    toDataURL (staticSurface pageData None (exportObjects pageData)) None in
  if String.eqb overlay "data:,"
  then drawn (exportPage pageData) = drawn (targetPage pageData)
  else ∃ o, drawn (exportPage pageData)
            = drawn (targetPage pageData) ++ [(overlay, o)].
Proof.
  intros overlay. unfold exportPage. fold overlay.
  destruct (getSize _) as [pdfWidth pdfHeight].
  destruct (String.eqb overlay "data:,"); simpl; [done|].
  destruct (rotation pageData =? 0); [by eexists|].
  destruct (if Js.rem _ 360 =? 90 then _ else _). by eexists.
Qed.

(** X15: the merged document has one page for each stored page, in the
    order of the page list; each has the size of the page copied or
    created for it; and the export draws on it the overlay of that page
    and nothing else, or nothing at all when the overlay is empty. *)
Theorem export_page_for_page (st : App) (out : list PDFPage) (i : nat)
    (pageData : Page) :
  exportPDF st = Some out →
  pages st !! i = Some pageData →
  let overlay :=
    toDataURL (staticSurface pageData None (exportObjects pageData)) None in
  length out = length (pages st)
  ∧ ∃ pdfPage,
      out !! i = Some pdfPage
      ∧ MediaBox pdfPage = MediaBox (targetPage pageData)
      ∧ (if String.eqb overlay "data:,"
         then drawn pdfPage = drawn (targetPage pageData)
         else ∃ o, drawn pdfPage = drawn (targetPage pageData) ++ [(overlay, o)]).
Proof.
  intros Hout Hi overlay. unfold exportPDF in Hout.
  destruct (length (pages st) =? 0)%nat; [done|]. simplify_eq.
  split; [apply length_fmap|].
  exists (exportPage pageData). split; [by rewrite list_lookup_fmap, Hi|].
  split; [apply exportPage_MediaBox|apply exportPage_drawn].
Qed.

(** With no page there is no document. *)
Lemma exportPDF_empty (st : App) : exportPDF st = None ↔ pages st = [].
Proof.
  unfold exportPDF. destruct (pages st); simpl; split; done.
Qed.




(** X17: a page made by an upload is exported from the same page of its
    source: the k-th rendered page of a file (numbered k+1) has the copy
    of page k of that file as its target, and as long as it is not
    rotated the merged page keeps the rotation of the source page. *)
Theorem uploaded_page_exports_its_source (arrayBuffer : nat)
    (rendered : list RenderedPage) (k : nat) (r : RenderedPage) :
  rendered !! k = Some r →
  ∃ page,
    pagesOfFile arrayBuffer rendered !! k = Some page
    ∧ id page = r_id r ∧ fabricData page = None
    ∧ targetPage page = copyPage arrayBuffer (Z.of_nat k)
    ∧ Rotate (exportPage page)
      = getRotation (copyPage arrayBuffer (Z.of_nat k))
    ∧ MediaBox (exportPage page)
      = MediaBox (copyPage arrayBuffer (Z.of_nat k)).
Proof.
  intros Hk. unfold pagesOfFile. eexists. rewrite list_lookup_imap, Hk.
  split; [done|]. simpl.
  assert (Htarget : ∀ pg, pdfBytes pg = Some arrayBuffer →
                      pageNum pg = Z.of_nat k + 1 →
                      targetPage pg = copyPage arrayBuffer (Z.of_nat k)).
  { intros pg Hb Hn. unfold targetPage. rewrite Hb, Hn. f_equal. lia. }
  split; [done|]. split; [done|]. split; [by apply Htarget|].
  split.
  - rewrite exportPage_Rotate, Htarget by done. simpl. lia.
  - by rewrite exportPage_MediaBox, Htarget.
Qed.

End ExportMore.

Lemma export_page_for_page_witness :
  let P := Reference.platform 0 in
  let A := Reference.page "A" (Some 7%nat) 0 None in
  let B := Reference.page "B" None 90 None in
  let st := Samples.editor [A; B] 0 [] None in
  ∃ out pdfPage,
    exportPDF st = Some out ∧ length out = 2%nat
    ∧ out !! 1%nat = Some pdfPage ∧ MediaBox pdfPage = (1190%Q, 1684%Q).
Proof.
  intros P A B st.
  destruct (export_page_for_page st (exportPage <$> [A; B]) 1 B
              eq_refl eq_refl) as (Hlen & pdfPage & Hp & Hbox & _).
  exists (exportPage <$> [A; B]), pdfPage.
  split; [reflexivity|]. split; [exact Hlen|]. split; [exact Hp|].
  rewrite Hbox. reflexivity.
Defined.


Lemma uploaded_page_exports_its_source_witness :
  let P := Reference.platform 270 in
  let rendered :=
    [{| r_id := "a"; r_thumb := "data:image/png;base64,AA";
        r_width := 1190; r_height := 1684 |};
     {| r_id := "b"; r_thumb := "data:image/png;base64,BB";
        r_width := 1190; r_height := 1684 |}] in
  ∃ page, pagesOfFile 7 rendered !! 1%nat = Some page
          ∧ pageNum page = 2 ∧ Rotate (exportPage page) = 270.
Proof.
  intros P rendered.
  destruct (uploaded_page_exports_its_source 7 rendered 1
              {| r_id := "b"; r_thumb := "data:image/png;base64,BB";
                 r_width := 1190; r_height := 1684 |} eq_refl)
    as (page & Hp & _ & _ & _ & Hrot & _).
  exists page. split; [exact Hp|]. split.
  - simpl in Hp. by simplify_eq.
  - rewrite Hrot. reflexivity.
Defined.

(** ** Scales and zoom levels *)

Section ScaleMore.
Context `{Platform}.

Lemma Qmax_ge_l (a b : Q) : (a <= Qmax a b)%Q.
Proof.
  unfold Qmax. destruct (Qle_bool a b) eqn:E.
  - by apply Qle_bool_iff.
  - apply Qle_refl.
Qed.


Lemma Qmin_le_l (a b : Q) : (Qmin a b <= a)%Q.
Proof.
  unfold Qmin. destruct (Qle_bool a b) eqn:E.
  - apply Qle_refl.
  - apply Qlt_le_weak, Qnot_le_lt. intros Hle.
    apply Qle_bool_iff in Hle. congruence.
Qed.

Lemma Qmin_le_r (a b : Q) : (Qmin a b <= b)%Q.
Proof.
  unfold Qmin. destruct (Qle_bool a b) eqn:E.
  - by apply Qle_bool_iff.
  - apply Qle_refl.
Qed.

Lemma Qmin_glb (a b c : Q) : (c <= a)%Q → (c <= b)%Q → (c <= Qmin a b)%Q.
Proof. intros. unfold Qmin. by destruct (Qle_bool a b). Qed.

Lemma Qmax_lub (a b c : Q) : (a <= c)%Q → (b <= c)%Q → (Qmax a b <= c)%Q.
Proof. intros. unfold Qmax. by destruct (Qle_bool a b). Qed.




(** X19: whenever [fitZoom] sets a zoom level, the level is positive and
    at most 0.9, whatever the sizes of the page and of the workspace. *)
Theorem fitZoom_range (clientWidth clientHeight : Q) (st : App) (zoom : Q) :
  fitZoom clientWidth clientHeight st = Some zoom →
  (0 < zoom)%Q ∧ (zoom <= 9 # 10)%Q.
Proof.
  unfold fitZoom. destruct (currentIndex st =? -1); [done|].
  destruct (Js.index _ _) as [page|]; [|done].
  destruct (fabricCanvas st); [|done].
  destruct (_ || _); [done|]. intros [= <-].
  match goal with |- context [Qle_bool ?s 0] => set (scale := s) end.
  destruct (Qle_bool scale 0) eqn:E; simpl.
  - split; [reflexivity|discriminate].
  - split.
    + apply Qnot_le_lt. intros Hle. apply Qle_bool_iff in Hle. congruence.
    + subst scale. apply Qmin_le_r.
Qed.

(** X20: the zoom level stays between 0.1 and 5 under the wheel and the
    two zoom buttons. *)
Theorem zoom_stays_in_range (deltaY prev : Q) :
  (1 # 10 <= prev)%Q → (prev <= 5)%Q →
  ((1 # 10 <= wheelZoom deltaY prev)%Q ∧ (wheelZoom deltaY prev <= 5)%Q)
  ∧ ((1 # 10 <= zoomOut prev)%Q ∧ (zoomOut prev <= 5)%Q)
  ∧ ((1 # 10 <= zoomIn prev)%Q ∧ (zoomIn prev <= 5)%Q).
Proof.
  intros Hlo Hhi. unfold wheelZoom, zoomOut, zoomIn. repeat split.
  - apply Qmin_glb; [apply Qmax_ge_l|discriminate].
  - apply Qmin_le_r.
  - apply Qmax_ge_l.
  - apply Qmax_lub; [discriminate|].
    apply Qle_trans with prev; [|done].
    rewrite <- (Qplus_0_r prev) at 2. unfold Qminus.
    apply Qplus_le_compat; [apply Qle_refl|discriminate].
  - apply Qmin_glb; [discriminate|].
    apply Qle_trans with prev; [done|].
    rewrite <- (Qplus_0_r prev) at 1.
    apply Qplus_le_compat; [apply Qle_refl|discriminate].
  - apply Qmin_le_l.
Qed.


End ScaleMore.


Lemma fitZoom_range_witness :
  let st := Samples.editor [Reference.page "A" None 0 None] 0 [] None in
  ∃ zoom, fitZoom 1000 800 st = Some zoom ∧ (0 < zoom)%Q ∧ (zoom <= 9 # 10)%Q.
Proof.
  intros st.
  assert (Hz : ∃ zoom, fitZoom 1000 800 st = Some zoom)
    by (eexists; reflexivity).
  destruct Hz as [zoom Hzoom]. exists zoom. split; [exact Hzoom|].
  exact (fitZoom_range 1000 800 st zoom Hzoom).
Defined.

Lemma zoom_stays_in_range_witness :
  (1 # 10 <= zoomOut (1 # 10))%Q ∧ (zoomIn 5 <= 5)%Q.
Proof.
  assert (Hlo : (1 # 10 <= 1 # 10)%Q) by discriminate.
  assert (Hhi : (1 # 10 <= 5)%Q) by discriminate.
  assert (Hhi5 : (5 <= 5)%Q) by discriminate.
  destruct (zoom_stays_in_range 0 (1 # 10) Hlo Hhi) as (_ & [Hout _] & _).
  destruct (zoom_stays_in_range 0 5 Hhi Hhi5) as (_ & _ & [_ Hin]).
  split; [exact Hout|exact Hin].
Defined.


(** ** New pages *)

Section NewPagesMore.
Context `{Platform}.




(** X24: a blank page, once added, is the last page; it is exported as a
    new page of 1240 x 1754 without rotation, and when its overlay is not
    empty the overlay is drawn once, at (0,0) and with that size. *)
Theorem blank_page_exports_blank (newId thumb : string) (st : App) :
  ∃ page,
    last (pages (addBlankPage newId thumb st)) = Some page
    ∧ id page = newId ∧ fabricData page = None
    ∧ Rotate (exportPage page) = 0
    ∧ MediaBox (exportPage page) = (1240%Q, 1754%Q)
    ∧ let overlay := toDataURL (staticSurface page None []) None in
      if String.eqb overlay "data:," then drawn (exportPage page) = []
      else drawn (exportPage page)
           = [(overlay, {| opt_x := 0; opt_y := 0; opt_width := 1240;
                           opt_height := 1754; opt_rotate := None |})].
Proof.
  eexists. split.
  { unfold addBlankPage. destruct (currentIndex st =? -1); simpl;
      apply last_snoc. }
  split; [done|]. split; [done|].
  split; [by rewrite exportPage_Rotate|].
  split; [by rewrite exportPage_MediaBox|].
  unfold exportPage, exportObjects. simpl.
  by destruct (String.eqb _ "data:,").
Qed.

End NewPagesMore.


(** ** New objects *)

Section NewObjectsMore.
Context `{Platform}.

Lemma toJSON_objects include c c' h :
  _objects c' = _objects c → toJSON include c' h = toJSON include c h.
Proof. intros Ho. unfold toJSON. by rewrite Ho. Qed.

(** X25: in the Ready state [addShape] with one of its five types puts
    the new object on top of the canvas and selects it; the object is
    saved at once, twice (by the ['object:added'] listener and by
    [addShape] itself), and the second save finds the store up to date; a
    mosaic region is also scheduled for its first bake.  With another
    type, or without current page, nothing changes. *)
Theorem addShape_adds_on_top (defaults : string → gmap string JsVal)
    (type : string) (st : App) (c : Canvas) (page : Page) klass options
    element :
  fabricCanvas st = Some c →
  isUpdatingRef st = false →
  Js.index (pages st) (currentIndex st) = Some page →
  id page ≠ "" →
  shapeOptions type c (properties st) = Some (klass, options, element) →
  let obj := nextRef st in
  let st' := addShape defaults type st in
  let json := toJSON savedProperties
                {| cv_width := cv_width c; cv_height := cv_height c;
                   backgroundColor := backgroundColor c;
                   backgroundImage := backgroundImage c;
                   _objects := _objects c ++ [obj];
                   _activeObject := None |} (heap st') in
  (∃ c', fabricCanvas st' = Some c'
         ∧ _objects c' = _objects c ++ [obj]
         ∧ _activeObject c' = Some (ActiveObject obj))
  ∧ deref st' obj = newObject (defaults klass) options element
  ∧ snapshots st' = snapshots st ++ [json; json]
  ∧ (∃ page', Js.index (pages st') (currentIndex st') = Some page'
              ∧ fabricData page' = Some json ∧ id page' = id page)
  ∧ timers st'
    = timers st
      ++ (if isMosaic (newObject (defaults klass) options element)
          then [Timeout 50 obj] else []).
Proof.
  intros Hc Hu Hp Hid Hshape obj st' json.
  set (o := newObject (defaults klass) options element).
  assert (Hci : (currentIndex st =? -1) = false).
  { apply Z.eqb_neq. destruct (index_Some_inv _ _ _ Hp). lia. }
  (* canvas.add, before the listener saves *)
  set (c1 := {| cv_width := cv_width c; cv_height := cv_height c;
                backgroundColor := backgroundColor c;
                backgroundImage := backgroundImage c;
                _objects := _objects c ++ [obj];
                _activeObject := _activeObject c |}).
  set (sa := set_canvas (λ c0, {| cv_width := cv_width c0;
                                  cv_height := cv_height c0;
                                  backgroundColor := backgroundColor c0;
                                  backgroundImage := backgroundImage c0;
                                  _objects := _objects c0 ++ [obj];
                                  _activeObject := _activeObject c0 |})
               (set_nextRef (S obj) (set_heap (insert obj o) st))).
  set (sb := if isMosaic o
             then set_timers (λ ts, ts ++ [Timeout 50 obj]) sa else sa).
  assert (Hadd : addObject o st = saveCurrentState sb).
  { unfold addObject, handleObjectAdded. fold obj. fold sa.
    unfold deref. replace (heap sa !!! obj) with o; [done|].
    subst sa. simpl. by rewrite lookup_total_insert_eq. }
  assert (Hsb : fabricCanvas sb = Some c1 ∧ isUpdatingRef sb = false
                ∧ pages sb = pages st ∧ currentIndex sb = currentIndex st
                ∧ heap sb = <[obj:=o]> (heap st)
                ∧ snapshots sb = snapshots st
                ∧ timers sb = timers st ++ (if isMosaic o then [Timeout 50 obj] else [])).
  { subst sb sa. destruct (isMosaic o); simpl; rewrite Hc; simpl;
      rewrite ?app_nil_r; by repeat split. }
  destruct Hsb as (Hcb & Hub & Hpb & Hib & Hhb & Hsnb & Htb).
  assert (Hpb' : Js.index (pages sb) (currentIndex sb) = Some page)
    by (by rewrite Hpb, Hib).
  pose proof (saveCurrentState_ready sb c1 page Hcb Hub Hpb' Hid) as Hsave1.
  simpl in Hsave1.
  set (json1 := toJSON savedProperties c1 (heap sb)) in *.
  destruct (savePages_current (currentIndex sb) json1 (pages sb) page Hpb')
    as (page1 & Hp1 & Hdata1 & Hid1).
  set (s1 := saveCurrentState sb) in *.
  (* setActiveObject, then the second save *)
  set (c2 := {| cv_width := cv_width c1; cv_height := cv_height c1;
                backgroundColor := backgroundColor c1;
                backgroundImage := backgroundImage c1;
                _objects := _objects c1;
                _activeObject := Some (ActiveObject obj) |}).
  set (s2 := setActiveObject obj s1).
  assert (Hs2 : fabricCanvas s2 = Some c2 ∧ isUpdatingRef s2 = false
                ∧ pages s2 = pages s1 ∧ currentIndex s2 = currentIndex s1
                ∧ heap s2 = heap s1 ∧ snapshots s2 = snapshots s1
                ∧ timers s2 = timers s1).
  { subst s2. unfold setActiveObject, handleSelection, syncProperties.
    simpl. rewrite Hsave1. simpl. rewrite Hcb. by repeat split. }
  destruct Hs2 as (Hc2 & Hu2 & Hp2 & Hi2 & Hh2 & Hsn2 & Ht2).
  assert (Hst' : st' = saveCurrentState s2).
  { subst st'. unfold addShape. rewrite Hc, Hci, Hshape. fold obj o.
    by rewrite Hadd. }
  clearbody s2 s1 sb.
  assert (Hidx2 : Js.index (pages s2) (currentIndex s2) = Some page1).
  { rewrite Hp2, Hi2, Hsave1. simpl. exact Hp1. }
  assert (Hid1' : id page1 ≠ "") by (by rewrite Hid1).
  assert (Hjson2 : toJSON savedProperties c2 (heap s2) = json1).
  { rewrite Hh2, Hsave1. simpl. by apply toJSON_objects. }
  assert (Hsave2 :
    saveCurrentState s2
    = log_snapshot json1
        (set_pages (savePages (currentIndex s2) (id page1) json1) s2)).
  { rewrite <- Hjson2.
    exact (saveCurrentState_ready s2 c2 page1 Hc2 Hu2 Hidx2 Hid1'). }
  assert (Hheap : heap st' = heap sb).
  { rewrite Hst', Hsave2. simpl. rewrite Hh2, Hsave1. done. }
  assert (Hjson : json = json1).
  { subst json json1. rewrite Hheap. by apply toJSON_objects. }
  rewrite Hjson.
  split; [|split; [|split; [|split]]].
  - rewrite Hst', Hsave2. simpl. rewrite Hc2. eexists. by repeat split.
  - unfold deref. rewrite Hheap, Hhb. apply lookup_total_insert_eq.
  - rewrite Hst', Hsave2. simpl. rewrite Hsn2, Hsave1. simpl.
    rewrite Hsnb, <- app_assoc. done.
  - rewrite Hst', Hsave2. simpl.
    destruct (savePages_current (currentIndex s2) json1 (pages s2) page1 Hidx2)
      as (page2 & Hpg2 & Hd2 & Hid2).
    exists page2. split; [done|]. split; [done|]. congruence.
  - rewrite Hst', Hsave2. simpl. rewrite Ht2, Hsave1. simpl. exact Htb.
Qed.

(** Without current page, or with a type it does not know, [addShape]
    does nothing. *)
Lemma addShape_nothing defaults type st :
  currentIndex st = -1 ∨ (∀ c, shapeOptions type c (properties st) = None) →
  addShape defaults type st = st.
Proof.
  intros [Hci|Hnone]; unfold addShape; destruct (fabricCanvas st); try done.
  - by rewrite Hci.
  - rewrite Hnone. by destruct (currentIndex st =? -1).
Qed.

End NewObjectsMore.

Lemma addShape_adds_on_top_witness :
  let P := Reference.platform 0 in
  let st := Samples.editor [Reference.page "p1" None 0 None] 0
              [Samples.filledRect] None in
  let st' := addShape (λ _, ∅) "mosaic" st in
  (∃ c', fabricCanvas st' = Some c' ∧ _objects c' = [0; 1]%nat
         ∧ _activeObject c' = Some (ActiveObject 1%nat))
  ∧ length (snapshots st') = 2%nat
  ∧ timers st' = [Timeout 50 1%nat].
Proof.
  intros P st st'.
  assert (Hid : id (Reference.page "p1" None 0 None) ≠ "") by discriminate.
  destruct (@addShape_adds_on_top P (λ _, ∅) "mosaic" st
              {| cv_width := 1190; cv_height := 1684; backgroundColor := "";
                 backgroundImage := None; _objects := [0%nat];
                 _activeObject := None |}
              (Reference.page "p1" None 0 None) _ _ _
              eq_refl eq_refl eq_refl Hid eq_refl)
    as (Hcanvas & _ & Hsnap & _ & Htimers).
  split; [exact Hcanvas|]. split.
  - fold st' in Hsnap. rewrite Hsnap. reflexivity.
  - fold st' in Htimers. rewrite Htimers. reflexivity.
Defined.
